(** * Promotions persistence layer: the web storage adapter and the promotion
      service, embedded from [services/database/web.ts], [services/database.ts]
      and [services/promocaoService.ts].

    The service talks to a [Database] object.  On the web platform that
    object is the [WebDatabase] of [web.ts]: it keeps both tables in one JSON
    document under a single AsyncStorage key and decides what to do by
    looking for substrings of the statement text.  The development below
    models that adapter as written (statement text included), runs the
    service on top of it, and states the lifecycle properties of the
    promotion table and of the history ledger. *)

From Stdlib Require Import String Ascii List ZArith Bool Lia.
Import ListNotations.

Local Open Scope string_scope.
Local Open Scope list_scope.
Local Open Scope Z_scope.

(* ------------------------------------------------------------------ *)
(** ** JavaScript values and strings *)

(** The values that travel through [params] and that row fields hold.
    A number is the integer it is worth: the numbers the program computes
    with are identifiers, lengths and times, and the discount is only stored
    and passed along.  Sums and differences are rounded as JavaScript rounds
    them ([round_double] below). *)
Inductive jsval : Type :=
| JUndefined
| JNull
| JNum (n : Z)
| JStr (s : string).

(** [a === b] *)
Definition js_seq (a b : jsval) : bool :=
  match a, b with
  | JUndefined, JUndefined => true
  | JNull, JNull => true
  | JNum x, JNum y => x =? y
  | JStr x, JStr y => String.eqb x y
  | _, _ => false
  end.

(** Truthiness, as tested by [if (v)] and [v || w]. *)
Definition truthy (v : jsval) : bool :=
  match v with
  | JUndefined | JNull => false
  | JNum n => negb (n =? 0)
  | JStr s => negb (String.eqb s "")
  end.

(** [a || b] *)
Definition js_or (a b : jsval) : jsval := if truthy a then a else b.

(** [v !== undefined] *)
Definition defined (v : jsval) : bool :=
  match v with JUndefined => false | _ => true end.

(** [s.startsWith(pat)] and [s.includes(pat)].  Strings are byte strings
    (UTF-8); the statement texts and patterns are the bytes of the source
    files. *)
Definition startsWith (s pat : string) : bool := String.prefix pat s.

Fixpoint includes (s pat : string) : bool :=
  if String.prefix pat s then true
  else match s with
       | EmptyString => false
       | String _ s' => includes s' pat
       end.

Definition nl : string := String (ascii_of_nat 10) EmptyString.
Definition dq : string := String (ascii_of_nat 34) EmptyString.

(** A template literal that spans several source lines. *)
Definition lines (ls : list string) : string := String.concat nl ls.

(** [params?.[i]] *)
Definition param (params : list jsval) (i : nat) : jsval := nth i params JUndefined.

(** [params?.[params.length - 1]] *)
Definition last_param (params : list jsval) : jsval := last params JUndefined.

(** [Math.max(...xs)] on a non-empty argument list.  (JavaScript answers
    -Infinity for no argument; both callers test [length > 0] first.) *)
Fixpoint Math_max (xs : list Z) : Z :=
  match xs with
  | [] => 0
  | [x] => x
  | x :: r => Z.max x (Math_max r)
  end.

(** 2^53: from here on not every integer is a number of JavaScript. *)
Definition two53 : Z := 9007199254740992.

(** The number nearest to the integer [z] (round to nearest, ties to the even
    significand): what an arithmetic operation answers when its exact result
    is [z].  Up to 2^53 in magnitude every integer is a number; beyond, the
    integer is cut to 53 significant binary digits. *)
Definition round_double (z : Z) : Z :=
  let a := Z.abs z in
  if a <=? two53 then z
  else
    let e := Z.log2 a - 52 in
    let q := a / 2 ^ e in
    let r := a mod 2 ^ e in
    let half := 2 ^ (e - 1) in
    let q' := if (half <? r) || ((r =? half) && Z.odd q) then q + 1 else q in
    Z.sgn z * (q' * 2 ^ e).

(** [a + b] and [a - b] on numbers *)
Definition js_add (a b : Z) : Z := round_double (a + b).
Definition js_sub (a b : Z) : Z := round_double (a - b).

(** [arr.length] *)
Definition len {A : Type} (l : list A) : Z := Z.of_nat (length l).

(* ------------------------------------------------------------------ *)
(** ** The parts of the JavaScript runtime the code calls *)

(** [Date_parse s] is [new Date(s).getTime()] for a string ([None] is NaN),
    [StringToNumber s] is the numeric value of a string in a comparison
    ([None] is NaN), [Array_sort cmp l] is [l.sort(cmp)] where the comparator
    answers a number ([None] is NaN). *)
Record Runtime : Type := {
  Date_parse : string -> option Z;
  StringToNumber : string -> option Z;
  Array_sort : forall A : Type, (A -> A -> option Z) -> list A -> list A
}.

(** The largest time value a Date holds, in milliseconds. *)
Definition max_time : Z := 8640000000000000.

(** [new Date(v).getTime()] *)
Definition Date_getTime (rt : Runtime) (v : jsval) : option Z :=
  match v with
  | JUndefined => None
  | JNull => Some 0
  | JNum n => if Z.abs n <=? max_time then Some n else None
  | JStr s => Date_parse rt s
  end.

(** [x - y] on two time values *)
Definition num_sub (x y : option Z) : option Z :=
  match x, y with
  | Some a, Some b => Some (js_sub a b)
  | _, _ => None
  end.

(** [x > y] on two time values *)
Definition num_gt (x y : option Z) : bool :=
  match x, y with
  | Some a, Some b => b <? a
  | _, _ => false
  end.

Definition ToNumber (rt : Runtime) (v : jsval) : option Z :=
  match v with
  | JUndefined => None
  | JNull => Some 0
  | JNum n => Some n
  | JStr s => StringToNumber rt s
  end.

(** [a < b]: two strings compare as texts (by bytes here, which is the
    code-unit order of JavaScript on the ASCII texts the program stores),
    anything else as numbers. *)
Definition js_lt (rt : Runtime) (a b : jsval) : bool :=
  match a, b with
  | JStr x, JStr y => String.ltb x y
  | _, _ =>
      match ToNumber rt a, ToNumber rt b with
      | Some x, Some y => x <? y
      | _, _ => false
      end
  end.

(* ------------------------------------------------------------------ *)
(** ** The stored document *)

(** A row of the [promocoes] collection, with the keys [web.ts] writes. *)
Module Promocao.
Record t : Type := mk {
  id : Z;
  produto_id : jsval;
  produto_nome : jsval;
  desconto : jsval;
  data_inicio : jsval;
  data_fim : jsval;
  data_criacao : jsval;
  status : jsval;
  data_expiracao : jsval
}.

Definition set_desconto (v : jsval) (p : t) : t :=
  mk (id p) (produto_id p) (produto_nome p) v (data_inicio p) (data_fim p)
     (data_criacao p) (status p) (data_expiracao p).
Definition set_data_fim (v : jsval) (p : t) : t :=
  mk (id p) (produto_id p) (produto_nome p) (desconto p) (data_inicio p) v
     (data_criacao p) (status p) (data_expiracao p).
Definition set_status (v : jsval) (p : t) : t :=
  mk (id p) (produto_id p) (produto_nome p) (desconto p) (data_inicio p) (data_fim p)
     (data_criacao p) v (data_expiracao p).
Definition set_data_expiracao (v : jsval) (p : t) : t :=
  mk (id p) (produto_id p) (produto_nome p) (desconto p) (data_inicio p) (data_fim p)
     (data_criacao p) (status p) v.
End Promocao.

(** A row of the [historico_promocoes] collection. *)
Module Historico.
Record t : Type := mk {
  id : Z;
  promocao_id : jsval;
  produto_nome : jsval;
  desconto : jsval;
  data_inicio : jsval;
  data_fim : jsval;
  acao : jsval;
  data_acao : jsval
}.
End Historico.

Record Database : Type := mkDatabase {
  promocoes : list Promocao.t;
  historico_promocoes : list Historico.t
}.

(** What a query hands back: rows of either collection, or a [{count}]
    object.  [prop r k] is the property read [r.k]; a key the object does not
    have reads as [undefined]. *)
Inductive row : Type :=
| RowPromocao (p : Promocao.t)
| RowHistorico (h : Historico.t)
| RowCount (count : Z).

Definition prop (r : row) (k : string) : jsval :=
  match r with
  | RowPromocao p =>
      if String.eqb k "id" then JNum (Promocao.id p)
      else if String.eqb k "produto_id" then Promocao.produto_id p
      else if String.eqb k "produto_nome" then Promocao.produto_nome p
      else if String.eqb k "desconto" then Promocao.desconto p
      else if String.eqb k "data_inicio" then Promocao.data_inicio p
      else if String.eqb k "data_fim" then Promocao.data_fim p
      else if String.eqb k "data_criacao" then Promocao.data_criacao p
      else if String.eqb k "status" then Promocao.status p
      else if String.eqb k "data_expiracao" then Promocao.data_expiracao p
      else JUndefined
  | RowHistorico h =>
      if String.eqb k "id" then JNum (Historico.id h)
      else if String.eqb k "promocao_id" then Historico.promocao_id h
      else if String.eqb k "produto_nome" then Historico.produto_nome h
      else if String.eqb k "desconto" then Historico.desconto h
      else if String.eqb k "data_inicio" then Historico.data_inicio h
      else if String.eqb k "data_fim" then Historico.data_fim h
      else if String.eqb k "acao" then Historico.acao h
      else if String.eqb k "data_acao" then Historico.data_acao h
      else JUndefined
  | RowCount n =>
      if String.eqb k "count" then JNum n else JUndefined
  end.

(* ------------------------------------------------------------------ *)
(** ** AsyncStorage and sequencing *)

(** The content of AsyncStorage under the adapter's key: nothing yet, or the
    document.  [JSON.stringify] followed by [JSON.parse] is the identity on
    documents of this shape (a key holding [undefined] is dropped on the way
    out and reads as [undefined] on the way in). *)
Definition Storage : Type := option Database.

(** An awaited computation: it reads and writes the storage and answers. *)
Definition Promise (A : Type) : Type := Storage -> A * Storage.

Definition ret {A : Type} (a : A) : Promise A := fun s => (a, s).

Definition bind {A B : Type} (m : Promise A) (k : A -> Promise B) : Promise B :=
  fun s => let (a, s') := m s in k a s'.

Notation "x <- m ;; k" := (bind m (fun x => k))
  (at level 61, m at next level, right associativity).
Notation "m ;;; k" := (bind m (fun _ => k))
  (at level 61, right associativity).

Definition getItem : Promise (option Database) := fun s => (s, s).
Definition setItem (d : Database) : Promise unit := fun _ => (tt, Some d).

(** The tables as a reader of the storage sees them. *)
Definition tab_promocoes (s : Storage) : list Promocao.t :=
  match s with Some d => promocoes d | None => [] end.
Definition tab_historico (s : Storage) : list Historico.t :=
  match s with Some d => historico_promocoes d | None => [] end.


(* ------------------------------------------------------------------ *)
(** ** [WebDatabase] of [services/database/web.ts] *)

Record RunResult : Type := mkRunResult {
  lastInsertRowId : Z;
  changes : Z
}.

(** The substrings [getAllAsync] looks for, in the order it tests them. *)
Definition pat_select_promocoes : string := "SELECT * FROM promocoes".
Definition pat_select_historico : string := "SELECT * FROM historico_promocoes".
Definition pat_count_promocoes : string := "SELECT COUNT(*) as count FROM promocoes".
Definition pat_count_ativa : string :=
  String.append "SELECT COUNT(*) as count FROM promocoes WHERE status = "
                (String.append dq (String.append "ativa" dq)).
Definition pat_count_expirada : string :=
  String.append "SELECT COUNT(*) as count FROM promocoes WHERE status = "
                (String.append dq (String.append "expirada" dq)).
Definition pat_count_excluida : string :=
  String.append "SELECT COUNT(*) as count FROM historico_promocoes WHERE acao = "
                (String.append dq (String.append "excluída" dq)).
Definition pat_where_vencidas : string := "WHERE data_fim < ? AND status = 'ativa'".
Definition pat_where_id : string := "WHERE id = ?".
Definition pat_where_hist_expirada : string :=
  String.append "WHERE promocao_id = ? AND acao = "
                (String.append dq (String.append "expirada" dq)).
Definition pat_order_criacao : string := "ORDER BY data_criacao DESC".
Definition pat_order_acao : string := "ORDER BY data_acao DESC".

(** The prefixes [runAsync] looks for. *)
Definition pre_insert_promocoes : string := "INSERT INTO promocoes".
Definition pre_insert_historico : string := "INSERT INTO historico_promocoes".
Definition pre_update_promocoes : string := "UPDATE promocoes".
Definition pre_delete_promocoes : string := "DELETE FROM promocoes".

(** [arr.find(f)] followed by assignments to the object found: the first
    element that satisfies [f] is replaced by its updated self. *)
Fixpoint update_first {A : Type} (f : A -> bool) (g : A -> A) (l : list A) : list A :=
  match l with
  | [] => []
  | x :: r => if f x then g x :: r else x :: update_first f g r
  end.

Section WebDatabase.

Context (rt : Runtime).

(** The comparators of the two ORDER BY branches. *)
Definition cmp_data_criacao (a b : Promocao.t) : option Z :=
  num_sub (Date_getTime rt (Promocao.data_criacao b))
          (Date_getTime rt (Promocao.data_criacao a)).
Definition cmp_data_acao (a b : Historico.t) : option Z :=
  num_sub (Date_getTime rt (Historico.data_acao b))
          (Date_getTime rt (Historico.data_acao a)).

(** [WebDatabase.getAllAsync] ([web.ts] lines 13-85). *)
Definition getAllAsync (query : string) (params : list jsval) : Promise (list row) :=
  data <- getItem ;;
  match data with
  | None => ret []
  | Some database =>
      if includes query pat_select_promocoes then
        ret (map RowPromocao (promocoes database))
      else if includes query pat_select_historico then
        ret (map RowHistorico (historico_promocoes database))
      else if includes query pat_count_promocoes then
        ret [RowCount (len (promocoes database))]
      else if includes query pat_count_ativa then
        ret [RowCount (len (filter (fun p => js_seq (Promocao.status p) (JStr "ativa"))
                                   (promocoes database)))]
      else if includes query pat_count_expirada then
        ret [RowCount (len (filter (fun p => js_seq (Promocao.status p) (JStr "expirada"))
                                   (promocoes database)))]
      else if includes query pat_count_excluida then
        ret [RowCount (len (filter (fun h => js_seq (Historico.acao h) (JStr "excluída"))
                                   (historico_promocoes database)))]
      else if includes query pat_where_vencidas then
        let hoje := param params 0 in
        ret (map RowPromocao
               (filter (fun p => js_lt rt (Promocao.data_fim p) hoje
                                 && js_seq (Promocao.status p) (JStr "ativa"))
                       (promocoes database)))
      else if includes query pat_where_id then
        let id := param params 0 in
        ret (map RowPromocao
               (filter (fun p => js_seq (JNum (Promocao.id p)) id) (promocoes database)))
      else if includes query pat_where_hist_expirada then
        let promocaoId := param params 0 in
        ret (map RowHistorico
               (filter (fun h => js_seq (Historico.promocao_id h) promocaoId
                                 && js_seq (Historico.acao h) (JStr "expirada"))
                       (historico_promocoes database)))
      else if includes query pat_order_criacao then
        ret (map RowPromocao (Array_sort rt _ cmp_data_criacao (promocoes database)))
      else if includes query pat_order_acao then
        ret (map RowHistorico (Array_sort rt _ cmp_data_acao (historico_promocoes database)))
      else ret []
  end.

(** [WebDatabase.getFirstAsync] ([web.ts] lines 87-95); [None] is [null]. *)
Definition getFirstAsync (query : string) (params : list jsval) : Promise (option row) :=
  results <- getAllAsync query params ;;
  ret (match results with r :: _ => Some r | [] => None end).

(** The generic branch of UPDATE ... WHERE id = ? ([web.ts] lines 166-176):
    the parameters are consumed in this fixed order, whatever the order of
    the assignments in the statement. *)
Definition update_fields (query : string) (params : list jsval) (p : Promocao.t) : Promocao.t :=
  let paramIndex := 0%nat in
  let '(p, paramIndex) :=
    if includes query "desconto = ?"
    then (Promocao.set_desconto (param params paramIndex) p, S paramIndex)
    else (p, paramIndex) in
  let '(p, paramIndex) :=
    if includes query "data_fim = ?"
    then (Promocao.set_data_fim (param params paramIndex) p, S paramIndex)
    else (p, paramIndex) in
  let '(p, paramIndex) :=
    if includes query "status = ?"
    then (Promocao.set_status (param params paramIndex) p, S paramIndex)
    else (p, paramIndex) in
  p.

(** [promocao.status = 'expirada'; promocao.data_expiracao = v] *)
Definition expirar (v : jsval) (p : Promocao.t) : Promocao.t :=
  Promocao.set_data_expiracao v (Promocao.set_status (JStr "expirada") p).

(** The test of the bulk UPDATE ([web.ts] line 182). *)
Definition vencida (hoje : jsval) (p : Promocao.t) : bool :=
  js_lt rt (Promocao.data_fim p) hoje && js_seq (Promocao.status p) (JStr "ativa").

(** [WebDatabase.runAsync] ([web.ts] lines 97-209). *)
Definition runAsync (query : string) (params : list jsval) : Promise RunResult :=
  data <- getItem ;;
  let database :=
    match data with
    | Some d => d
    | None => mkDatabase [] []
    end in
  if startsWith query pre_insert_promocoes then
    let newId :=
      if 0 <? len (promocoes database)
      then js_add (Math_max (map Promocao.id (promocoes database))) 1
      else 1 in
    let novaPromocao :=
      Promocao.mk newId (param params 0) (param params 1) (param params 2)
                  (param params 3) (param params 4) (param params 5)
                  (param params 6) JNull in
    setItem (mkDatabase (promocoes database ++ [novaPromocao])
                        (historico_promocoes database)) ;;;
    ret (mkRunResult newId 1)
  else if startsWith query pre_insert_historico then
    let newId :=
      if 0 <? len (historico_promocoes database)
      then js_add (Math_max (map Historico.id (historico_promocoes database))) 1
      else 1 in
    let novoHistorico :=
      Historico.mk newId (param params 0) (param params 1) (param params 2)
                   (param params 3) (param params 4) (param params 5)
                   (param params 6) in
    setItem (mkDatabase (promocoes database)
                        (historico_promocoes database ++ [novoHistorico])) ;;;
    ret (mkRunResult newId 1)
  else if startsWith query pre_update_promocoes then
    let '(promocoes', changes) :=
      if includes query pat_where_id then
        let id := last_param params in
        let found := fun p => js_seq (JNum (Promocao.id p)) id in
        match find found (promocoes database) with
        | Some _ =>
            if includes query "SET status = 'expirada'"
            then (update_first found (expirar (param params 0)) (promocoes database), 1)
            else (update_first found (update_fields query params) (promocoes database), 1)
        | None => (promocoes database, 0)
        end
      else if includes query pat_where_vencidas then
        let hoje := param params 0 in
        (map (fun p => if vencida hoje p then expirar hoje p else p) (promocoes database),
         len (filter (vencida hoje) (promocoes database)))
      else (promocoes database, 0) in
    setItem (mkDatabase promocoes' (historico_promocoes database)) ;;;
    ret (mkRunResult 0 changes)
  else if startsWith query pre_delete_promocoes then
    let id := param params 0 in
    let initialLength := len (promocoes database) in
    let promocoes' :=
      filter (fun p => negb (js_seq (JNum (Promocao.id p)) id)) (promocoes database) in
    let changes := initialLength - len promocoes' in
    setItem (mkDatabase promocoes' (historico_promocoes database)) ;;;
    ret (mkRunResult 0 changes)
  else ret (mkRunResult 0 0).

End WebDatabase.

(** [initDatabase] of [web.ts] (lines 218-227; the web branch of
    [initDatabase] in [database.ts], lines 266-275, is the same code). *)
Definition initDatabase : Promise unit :=
  existingData <- getItem ;;
  match existingData with
  | None => setItem (mkDatabase [] [])
  | Some _ => ret tt
  end.

(* ------------------------------------------------------------------ *)
(** ** [WebDatabaseImpl.runAsync] of [services/database.ts] *)

Module WebDatabaseImpl.

(** The generic branch of UPDATE ... WHERE id = ? (lines 150-154): the
    first three parameters, where given, are the discount, the end date and
    the status. *)
Definition update_fields (params : list jsval) (p : Promocao.t) : Promocao.t :=
  let p := if defined (param params 0) then Promocao.set_desconto (param params 0) p else p in
  let p := if defined (param params 1) then Promocao.set_data_fim (param params 1) p else p in
  let p := if defined (param params 2) then Promocao.set_status (param params 2) p else p in
  p.

(** Lines 87-176. *)
Definition runAsync (query : string) (params : list jsval) : Promise RunResult :=
  data <- getItem ;;
  let database :=
    match data with
    | Some d => d
    | None => mkDatabase [] []
    end in
  if startsWith query "INSERT INTO promocoes" then
    let newId :=
      if 0 <? len (promocoes database)
      then js_add (Math_max (map Promocao.id (promocoes database))) 1
      else 1 in
    let novaPromocao :=
      Promocao.mk newId (param params 0) (param params 1) (param params 2)
                  (param params 3) (param params 4) (param params 5)
                  (param params 6) JUndefined in
    setItem (mkDatabase (promocoes database ++ [novaPromocao])
                        (historico_promocoes database)) ;;;
    ret (mkRunResult newId 1)
  else if startsWith query "INSERT INTO historico_promocoes" then
    let newId :=
      if 0 <? len (historico_promocoes database)
      then js_add (Math_max (map Historico.id (historico_promocoes database))) 1
      else 1 in
    let novoHistorico :=
      Historico.mk newId (param params 0) (param params 1) (param params 2)
                   (param params 3) (param params 4) (param params 5)
                   (param params 6) in
    setItem (mkDatabase (promocoes database)
                        (historico_promocoes database ++ [novoHistorico])) ;;;
    ret (mkRunResult newId 1)
  else if startsWith query "UPDATE promocoes" then
    let '(promocoes', changes) :=
      if includes query "WHERE id = ?" then
        let id := last_param params in
        let found := fun p => js_seq (JNum (Promocao.id p)) id in
        match find found (promocoes database) with
        | Some _ =>
            if includes query "SET status = 'expirada'"
            then (update_first found (expirar (param params 0)) (promocoes database), 1)
            else (update_first found (update_fields params) (promocoes database), 1)
        | None => (promocoes database, 0)
        end
      else (promocoes database, 0) in
    setItem (mkDatabase promocoes' (historico_promocoes database)) ;;;
    ret (mkRunResult 0 changes)
  else if startsWith query "DELETE FROM promocoes" then
    let id := param params 0 in
    setItem (mkDatabase
               (filter (fun p => negb (js_seq (JNum (Promocao.id p)) id))
                       (promocoes database))
               (historico_promocoes database)) ;;;
    ret (mkRunResult 0 1)
  else ret (mkRunResult 0 0).

End WebDatabaseImpl.

(* ------------------------------------------------------------------ *)
(** ** The statements of [services/promocaoService.ts] *)

(** The column list of every SELECT on [promocoes] (lines 79-88, 197-206,
    276-285 and 300-309), up to and including [FROM promocoes]. *)
Definition select_promocoes : string :=
  lines [ "SELECT ";
          "        id,";
          "        produto_id as produtoId,";
          "        produto_nome as produtoNome,";
          "        desconto,";
          "        data_inicio as dataInicio,";
          "        data_fim as dataFim,";
          "        data_criacao as dataCriacao,";
          "        status,";
          "        data_expiracao as dataExpiracao";
          "       FROM promocoes" ].

Definition sql_insert_promocao : string :=
  lines [ "INSERT INTO promocoes ";
          "       (produto_id, produto_nome, desconto, data_inicio, data_fim, data_criacao, status) ";
          "       VALUES (?, ?, ?, ?, ?, ?, ?)" ].

(** The INSERT into the history; the four copies differ by their
    indentation only ([ind] blanks). *)
Definition sql_insert_historico (ind : string) : string :=
  lines [ "INSERT INTO historico_promocoes ";
          String.append ind
            "(promocao_id, produto_nome, desconto, data_inicio, data_fim, acao, data_acao) ";
          String.append ind "VALUES (?, ?, ?, ?, ?, ?, ?)" ].

Definition sql_todas_promocoes : string :=
  String.append select_promocoes " ORDER BY data_criacao DESC".

Definition sql_historico_completo : string :=
  lines [ "SELECT ";
          "        id,";
          "        promocao_id as promocaoId,";
          "        produto_nome as produtoNome,";
          "        desconto,";
          "        data_inicio as dataInicio,";
          "        data_fim as dataFim,";
          "        acao,";
          "        data_acao as dataAcao";
          "       FROM historico_promocoes ORDER BY data_acao DESC" ].

Definition sql_marcar_expiradas : string :=
  lines [ "UPDATE promocoes SET status = 'expirada', data_expiracao = ? ";
          "       WHERE data_fim < ? AND status = 'ativa'" ].

Definition sql_expiradas_hoje : string :=
  String.append select_promocoes
    (String.append " WHERE data_expiracao = ? AND status = "
                   (String.append dq (String.append "expirada" dq))).

Definition sql_existe_no_historico : string :=
  lines [ "SELECT ";
          "          id,";
          "          promocao_id as promocaoId,";
          "          produto_nome as produtoNome,";
          "          desconto,";
          "          data_inicio as dataInicio,";
          "          data_fim as dataFim,";
          "          acao,";
          "          data_acao as dataAcao";
          String.append "         FROM historico_promocoes WHERE promocao_id = ? AND acao = "
                        (String.append dq (String.append "expirada" dq)) ].

Definition sql_count_total : string := "SELECT COUNT(*) as count FROM promocoes".
Definition sql_count_ativas : string :=
  String.append "SELECT COUNT(*) as count FROM promocoes WHERE status = "
                (String.append dq (String.append "ativa" dq)).
Definition sql_count_expiradas : string :=
  String.append "SELECT COUNT(*) as count FROM promocoes WHERE status = "
                (String.append dq (String.append "expirada" dq)).
Definition sql_count_canceladas : string :=
  String.append "SELECT COUNT(*) as count FROM historico_promocoes WHERE acao = "
                (String.append dq (String.append "excluída" dq)).

Definition sql_promocoes_por_status : string :=
  String.append select_promocoes " WHERE status = ? ORDER BY data_criacao DESC".

Definition sql_promocao_por_id : string :=
  String.append select_promocoes " WHERE id = ?".

Definition sql_delete_promocao : string := "DELETE FROM promocoes WHERE id = ?".

(** [camposSnakeCase[campo] || campo] (lines 124-131 and 138), for the keys
    of a [Partial<Promocao>]. *)
Definition camposSnakeCase (campo : string) : string :=
  if String.eqb campo "produtoId" then "produto_id"
  else if String.eqb campo "produtoNome" then "produto_nome"
  else if String.eqb campo "dataInicio" then "data_inicio"
  else if String.eqb campo "dataFim" then "data_fim"
  else if String.eqb campo "dataCriacao" then "data_criacao"
  else if String.eqb campo "dataExpiracao" then "data_expiracao"
  else campo.

(** [`UPDATE promocoes SET ${setClause} WHERE id = ?`] (lines 138-139). *)
Definition sql_update (campos : list string) : string :=
  let setClause :=
    String.concat ", " (map (fun campo => String.append (camposSnakeCase campo) " = ?") campos) in
  String.append "UPDATE promocoes SET " (String.append setClause " WHERE id = ?").

(* ------------------------------------------------------------------ *)
(** ** The service's own types *)

Record CriarPromocaoData : Type := mkCriarPromocaoData {
  produtoId : string;
  produtoNome : string;
  desconto : Z;
  dataInicio : string;
  dataFim : string;
  dataCriacao : string
}.

Record EstatisticasPromocoes : Type := mkEstatisticas {
  total : jsval;
  ativas : jsval;
  expiradas : jsval;
  canceladas : jsval
}.

(** A [Partial<Promocao>]: the own keys of the object in insertion order,
    each with its value. *)
Definition Updates : Type := list (string * jsval).

(** [updates.k] *)
Fixpoint get_field (updates : Updates) (k : string) : jsval :=
  match updates with
  | [] => JUndefined
  | (k', v) :: r => if String.eqb k' k then v else get_field r k
  end.

(* ------------------------------------------------------------------ *)
(** ** [services/promocaoService.ts], with [db] the web adapter *)

(** The clock is an input: [agora] is [new Date().getTime()] and [hoje] is
    [new Date().toISOString().split('T')[0]] at the time of the call.  The
    service's [catch] blocks only log and rethrow, and the web adapter
    swallows every exception of its own, so no operation fails here. *)

Section PromocaoService.

Context (rt : Runtime).

(** [buscarPromocaoPorId] (lines 297-318). *)
Definition buscarPromocaoPorId (id : Z) : Promise (option row) :=
  getFirstAsync rt sql_promocao_por_id [JNum id].

(** [criarPromocao] (lines 49-73). *)
Definition criarPromocao (agora : Z) (data : CriarPromocaoData) : Promise Z :=
  let status :=
    if num_gt (Date_getTime rt (JStr (dataFim data))) (Some agora)
    then "ativa" else "expirada" in
  result <- runAsync rt sql_insert_promocao
              [JStr (produtoId data); JStr (produtoNome data); JNum (desconto data);
               JStr (dataInicio data); JStr (dataFim data); JStr (dataCriacao data);
               JStr status] ;;
  runAsync rt (sql_insert_historico "       ")
    [JNum (lastInsertRowId result); JStr (produtoNome data); JNum (desconto data);
     JStr (dataInicio data); JStr (dataFim data); JStr "criada";
     JStr (dataCriacao data)] ;;;
  ret (lastInsertRowId result).

(** [buscarTodasPromocoes] (lines 76-96). *)
Definition buscarTodasPromocoes : Promise (list row) :=
  getAllAsync rt sql_todas_promocoes [].

(** [buscarHistoricoCompleto] (lines 99-118). *)
Definition buscarHistoricoCompleto : Promise (list row) :=
  getAllAsync rt sql_historico_completo [].

(** [buscarPromocoesPorStatus] (lines 273-294). *)
Definition buscarPromocoesPorStatus (status : string) : Promise (list row) :=
  getAllAsync rt sql_promocoes_por_status [JStr status].

(** [atualizarPromocao] (lines 121-159). *)
Definition atualizarPromocao (hoje : string) (id : Z) (updates : Updates) : Promise unit :=
  let campos := map fst updates in
  let valores := map snd updates in
  if len campos =? 0 then ret tt
  else
    runAsync rt (sql_update campos) (valores ++ [JNum id]) ;;;
    if defined (get_field updates "desconto") then
      promocao <- buscarPromocaoPorId id ;;
      match promocao with
      | Some promocao =>
          runAsync rt (sql_insert_historico "           ")
            [JNum id; prop promocao "produtoNome"; get_field updates "desconto";
             prop promocao "dataInicio"; prop promocao "dataFim";
             JStr "atualizada"; JStr hoje] ;;;
          ret tt
      | None => ret tt
      end
    else ret tt.

(** [excluirPromocao] (lines 162-181). *)
Definition excluirPromocao (hoje : string) (id : Z) : Promise unit :=
  promocao <- buscarPromocaoPorId id ;;
  match promocao with
  | Some promocao =>
      runAsync rt (sql_insert_historico "         ")
        [JNum id; prop promocao "produtoNome"; prop promocao "desconto";
         prop promocao "dataInicio"; prop promocao "dataFim";
         JStr "excluída"; JStr hoje] ;;;
      ret tt
  | None => ret tt
  end ;;;
  runAsync rt sql_delete_promocao [JNum id] ;;;
  ret tt.

(** The loop of [atualizarStatusPromocoes] (lines 211-234). *)
Fixpoint registrarExpiradas (hoje : string) (promocoesExpiradas : list row) : Promise unit :=
  match promocoesExpiradas with
  | [] => ret tt
  | promocao :: resto =>
      existeNoHistorico <- getFirstAsync rt sql_existe_no_historico [prop promocao "id"] ;;
      match existeNoHistorico with
      | None =>
          runAsync rt (sql_insert_historico "           ")
            [prop promocao "id"; prop promocao "produtoNome"; prop promocao "desconto";
             prop promocao "dataInicio"; prop promocao "dataFim";
             JStr "expirada"; JStr hoje] ;;;
          ret tt
      | Some _ => ret tt
      end ;;;
      registrarExpiradas hoje resto
  end.

(** [atualizarStatusPromocoes] (lines 184-239). *)
Definition atualizarStatusPromocoes (hoje : string) : Promise unit :=
  runAsync rt sql_marcar_expiradas [JStr hoje; JStr hoje] ;;;
  promocoesExpiradas <- getAllAsync rt sql_expiradas_hoje [JStr hoje] ;;
  registrarExpiradas hoje promocoesExpiradas.

(** [x?.count || 0] *)
Definition count_or_0 (x : option row) : jsval :=
  js_or (match x with Some r => prop r "count" | None => JUndefined end) (JNum 0).

(** [obterEstatisticasPromocoes] (lines 242-270). *)
Definition obterEstatisticasPromocoes : Promise EstatisticasPromocoes :=
  total <- getFirstAsync rt sql_count_total [] ;;
  ativas <- getFirstAsync rt sql_count_ativas [] ;;
  expiradas <- getFirstAsync rt sql_count_expiradas [] ;;
  canceladas <- getFirstAsync rt sql_count_canceladas [] ;;
  ret (mkEstatisticas (count_or_0 total) (count_or_0 ativas)
                      (count_or_0 expiradas) (count_or_0 canceladas)).

End PromocaoService.

(* ------------------------------------------------------------------ *)
(** ** The calls of the service as operations on the store *)

(** The calls of the service. *)
Inductive operacao : Type :=
| InicializarBanco
| CriarPromocao (agora : Z) (data : CriarPromocaoData)
| BuscarTodasPromocoes
| BuscarHistoricoCompleto
| AtualizarPromocao (hoje : string) (id : Z) (updates : Updates)
| ExcluirPromocao (hoje : string) (id : Z)
| AtualizarStatusPromocoes (hoje : string)
| ObterEstatisticasPromocoes
| BuscarPromocoesPorStatus (status : string)
| BuscarPromocaoPorId (id : Z).

(** The store after a call. *)
Definition executar (rt : Runtime) (op : operacao) (s : Storage) : Storage :=
  match op with
  | InicializarBanco => s
  | CriarPromocao agora data => snd (criarPromocao rt agora data s)
  | BuscarTodasPromocoes => snd (buscarTodasPromocoes rt s)
  | BuscarHistoricoCompleto => snd (buscarHistoricoCompleto rt s)
  | AtualizarPromocao hoje id updates => snd (atualizarPromocao rt hoje id updates s)
  | ExcluirPromocao hoje id => snd (excluirPromocao rt hoje id s)
  | AtualizarStatusPromocoes hoje => snd (atualizarStatusPromocoes rt hoje s)
  | ObterEstatisticasPromocoes => snd (obterEstatisticasPromocoes rt s)
  | BuscarPromocoesPorStatus status => snd (buscarPromocoesPorStatus rt status s)
  | BuscarPromocaoPorId id => snd (buscarPromocaoPorId rt id s)
  end.

(** The store after a sequence of calls. *)
Definition executar_todas (rt : Runtime) (ops : list operacao) (s : Storage) : Storage :=
  fold_left (fun s op => executar rt op s) ops s.

(* ------------------------------------------------------------------ *)
(** ** A runtime to run the examples on *)

(** It reads a calendar date [YYYY-MM-DD] as that day's midnight UTC (what
    ECMAScript prescribes for the date-only form) and no other text, reads a
    string of decimal digits as a number, and sorts by stable insertion. *)

Definition digit (c : ascii) : option Z :=
  let n := Z.of_nat (nat_of_ascii c) in
  if (48 <=? n) && (n <=? 57) then Some (n - 48) else None.

Fixpoint digits (acc : Z) (s : string) : option Z :=
  match s with
  | EmptyString => Some acc
  | String c r =>
      match digit c with
      | Some d => digits (10 * acc + d) r
      | None => None
      end
  end.

(** Days from 1970-01-01 to the civil date [y-m-d]. *)
Definition days_from_civil (y m d : Z) : Z :=
  let y' := if m <=? 2 then y - 1 else y in
  let era := y' / 400 in
  let yoe := y' - era * 400 in
  let mp := (m + 9) mod 12 in
  let doy := (153 * mp + 2) / 5 + d - 1 in
  let doe := yoe * 365 + yoe / 4 - yoe / 100 + doy in
  era * 146097 + doe - 719468.

Definition parse_iso_date (s : string) : option Z :=
  if (String.length s =? 10)%nat
     && String.eqb (String.substring 4 1 s) "-"
     && String.eqb (String.substring 7 1 s) "-"
  then
    match digits 0 (String.substring 0 4 s),
          digits 0 (String.substring 5 2 s),
          digits 0 (String.substring 8 2 s) with
    | Some y, Some m, Some d =>
        if (1 <=? m) && (m <=? 12) && (1 <=? d) && (d <=? 31)
        then Some (days_from_civil y m d * 86400000)
        else None
    | _, _, _ => None
    end
  else None.

Fixpoint insert_sorted {A : Type} (cmp : A -> A -> option Z) (x : A) (l : list A) : list A :=
  match l with
  | [] => [x]
  | y :: r =>
      match cmp x y with
      | Some c => if 0 <? c then y :: insert_sorted cmp x r else x :: l
      | None => x :: l
      end
  end.

Definition insertion_sort (A : Type) (cmp : A -> A -> option Z) (l : list A) : list A :=
  fold_right (insert_sorted cmp) [] l.

Definition runtime_iso : Runtime := {|
  Date_parse := parse_iso_date;
  StringToNumber := fun s => match s with EmptyString => Some 0 | _ => digits 0 s end;
  Array_sort := insertion_sort
|}.

(* ------------------------------------------------------------------ *)
(** ** Vocabulary of the statements below *)

(** The identifier an INSERT generates from the identifiers in the table. *)
Definition newId_of (ids : list Z) : Z :=
  if 0 <? len ids then js_add (Math_max ids) 1 else 1.

(** [Number.isSafeInteger]: an integer of magnitude below 2^53. *)
Definition inteiro_seguro (i : Z) : Prop := Z.abs i < two53.

Definition novoHistorico_of (s : Storage) (params : list jsval) : Historico.t :=
  Historico.mk (newId_of (map Historico.id (tab_historico s)))
               (param params 0) (param params 1) (param params 2) (param params 3)
               (param params 4) (param params 5) (param params 6).

Definition novaPromocao_of (s : Storage) (params : list jsval) : Promocao.t :=
  Promocao.mk (newId_of (map Promocao.id (tab_promocoes s)))
              (param params 0) (param params 1) (param params 2) (param params 3)
              (param params 4) (param params 5) (param params 6) JNull.

(** What UPDATE ... WHERE id = ? does to the table: at most the first row
    with that identifier changes, by one of the two assignments. *)
Definition update_por_id (query : string) (params : list jsval)
    (l : list Promocao.t) : list Promocao.t :=
  let found := fun p => js_seq (JNum (Promocao.id p)) (last_param params) in
  if includes query "SET status = 'expirada'"
  then update_first found (expirar (param params 0)) l
  else update_first found (update_fields query params) l.

(** The first row of the table with identifier [id], as [buscarPromocaoPorId]
    answers it. *)
Definition primeira_com_id (id : Z) (l : list Promocao.t) : option Promocao.t :=
  match filter (fun p => Promocao.id p =? id) l with
  | p :: _ => Some p
  | [] => None
  end.

(** The status [criarPromocao] computes (line 51). *)
Definition status_inicial (rt : Runtime) (agora : Z) (data : CriarPromocaoData) : string :=
  if num_gt (Date_getTime rt (JStr (dataFim data))) (Some agora) then "ativa" else "expirada".

(** The entry the loop of the sweep writes for a row (lines 227-232). *)
Definition entrada_expirada (hoje : string) (promocao : row) (s : Storage) : Historico.t :=
  novoHistorico_of s
    [prop promocao "id"; prop promocao "produtoNome"; prop promocao "desconto";
     prop promocao "dataInicio"; prop promocao "dataFim"; JStr "expirada"; JStr hoje].

(** The entry [atualizarPromocao] writes (lines 147-152), from the row read
    back after the UPDATE. *)
Definition entrada_atualizada (hoje : string) (id : Z) (updates : Updates)
    (promocao : row) (s : Storage) : Historico.t :=
  novoHistorico_of s
    [JNum id; prop promocao "produtoNome"; get_field updates "desconto";
     prop promocao "dataInicio"; prop promocao "dataFim"; JStr "atualizada"; JStr hoje].

(** The entry [excluirPromocao] writes (lines 167-172). *)
Definition entrada_excluida (hoje : string) (id : Z) (promocao : row) (s : Storage) : Historico.t :=
  novoHistorico_of s
    [JNum id; prop promocao "produtoNome"; prop promocao "desconto";
     prop promocao "dataInicio"; prop promocao "dataFim"; JStr "excluída"; JStr hoje].

(** Number of rows of a table that satisfy a test. *)
Definition conta {A : Type} (f : A -> bool) (l : list A) : Z := len (filter f l).

Definition is_ativa (p : Promocao.t) : bool := js_seq (Promocao.status p) (JStr "ativa").
Definition is_expirada (p : Promocao.t) : bool := js_seq (Promocao.status p) (JStr "expirada").
Definition is_excluida (h : Historico.t) : bool := js_seq (Historico.acao h) (JStr "excluída").

(** The history entries with action [expirada] that belong to promotion [pid]. *)
Definition expirada_de (pid : jsval) (h : Historico.t) : bool :=
  js_seq (Historico.promocao_id h) pid && js_seq (Historico.acao h) (JStr "expirada").

(** The entry [e] carries the action date [hoje] and the name and dates of
    the promotion row [p]. *)
Definition registra_dados_de (p : Promocao.t) (hoje : string) (e : Historico.t) : Prop :=
  Historico.data_acao e = JStr hoje
  /\ Historico.produto_nome e = Promocao.produto_nome p
  /\ Historico.data_inicio e = Promocao.data_inicio p
  /\ Historico.data_fim e = Promocao.data_fim p.

(** [novo] is one more than the largest of [ids], or 1 when there is none;
    it is then above every one of them. *)
Definition identificador_novo (ids : list Z) (novo : Z) : Prop :=
  (ids = [] -> novo = 1)
  /\ (ids <> [] ->
      exists m, In m ids /\ (forall i, In i ids -> i <= m) /\ novo = m + 1)
  /\ (forall i, In i ids -> i < novo /\ i <> novo).

(** The substrings [getAllAsync] recognises and the prefixes [runAsync]
    recognises. *)
Definition padroes_getAll : list string :=
  [ pat_select_promocoes; pat_select_historico; pat_count_promocoes; pat_count_ativa;
    pat_count_expirada; pat_count_excluida; pat_where_vencidas; pat_where_id;
    pat_where_hist_expirada; pat_order_criacao; pat_order_acao ].

Definition prefixos_run : list string :=
  [ pre_insert_promocoes; pre_insert_historico; pre_update_promocoes; pre_delete_promocoes ].

Definition nenhum_padrao (query : string) : bool :=
  forallb (fun p => negb (includes query p)) padroes_getAll.

Definition nenhum_prefixo (query : string) : bool :=
  forallb (fun p => negb (startsWith query p)) prefixos_run.

(** The first substring of [padroes_getAll] that a statement contains: the
    branch of [getAllAsync] that answers it. *)
Definition padrao_de (query : string) : option string :=
  find (fun p => includes query p) padroes_getAll.

(** The keys of a [Promocao] (lines 4-14 of the service) whose assignment
    the generic UPDATE branch of [web.ts] does not look for. *)
Definition campos_sem_efeito : list string :=
  [ "id"; "produtoId"; "produtoNome"; "dataInicio"; "dataCriacao"; "dataExpiracao" ].

(** The keys of a [Promocao] other than [desconto]. *)
Definition campos_alem_do_desconto : list string :=
  [ "id"; "produtoId"; "produtoNome"; "dataInicio"; "dataFim"; "dataCriacao";
    "status"; "dataExpiracao" ].

(** The actions the service writes on the web adapter. *)
Definition acao_gravada (e : Historico.t) : Prop :=
  Historico.acao e = JStr "criada"
  \/ Historico.acao e = JStr "atualizada"
  \/ Historico.acao e = JStr "excluída".

(** No two rows of a table share an identifier. *)
Definition ids_unicos (s : Storage) : Prop :=
  NoDup (map Promocao.id (tab_promocoes s))
  /\ NoDup (map Historico.id (tab_historico s)).

(** Every identifier of both tables lies above -2^53 and below [b]. *)
Definition ids_entre (b : Z) (s : Storage) : Prop :=
  Forall (fun i => - two53 < i < b) (map Promocao.id (tab_promocoes s))
  /\ Forall (fun i => - two53 < i < b) (map Historico.id (tab_historico s)).

(** The store after sweeps on the dates [hojes], in that order. *)
Definition varrer_todas (rt : Runtime) (hojes : list string) (s : Storage) : Storage :=
  fold_left (fun s hoje => snd (atualizarStatusPromocoes rt hoje s)) hojes s.

(** The request of the running example, and the store right after it was
    created on an empty storage: promotion 1 and its 'criada' entry. *)
Definition pedido_cafe : CriarPromocaoData :=
  mkCriarPromocaoData "p1" "Cafe" 10 "2024-01-01" "2024-01-31" "2024-01-01".

Definition promocao_cafe : Promocao.t :=
  Promocao.mk 1 (JStr "p1") (JStr "Cafe") (JNum 10) (JStr "2024-01-01")
    (JStr "2024-01-31") (JStr "2024-01-01") (JStr "ativa") JNull.

Definition entrada_cafe_criada : Historico.t :=
  Historico.mk 1 (JNum 1) (JStr "Cafe") (JNum 10) (JStr "2024-01-01")
    (JStr "2024-01-31") (JStr "criada") (JStr "2024-01-01").

(** A store with one active promotion that ended on 2024-01-31. *)
Definition loja_uma_vencida : Storage :=
  Some (mkDatabase [promocao_cafe] [entrada_cafe_criada]).

(** The same store after a sweep on 2024-02-01: one expired promotion and
    no active one. *)
Definition loja_uma_expirada : Storage :=
  Some (mkDatabase
          [Promocao.mk 1 (JStr "p1") (JStr "Cafe") (JNum 10) (JStr "2024-01-01")
             (JStr "2024-01-31") (JStr "2024-01-01") (JStr "expirada") (JStr "2024-02-01")]
          [entrada_cafe_criada]).

(** A store whose promotion and whose history entry carry the identifier
    2^53. *)
Definition loja_id_2_53 : Storage :=
  Some (mkDatabase
          [Promocao.mk two53 (JStr "p1") (JStr "Cafe") (JNum 10) (JStr "2024-01-01")
             (JStr "2024-01-31") (JStr "2024-01-01") (JStr "ativa") JNull]
          [Historico.mk two53 (JNum two53) (JStr "Cafe") (JNum 10) (JStr "2024-01-01")
             (JStr "2024-01-31") (JStr "criada") (JStr "2024-01-01")]).

(** 2024-01-01T12:00:00Z in milliseconds. *)
Definition meio_dia_1_janeiro_2024 : Z := 1704110400000.

(** 2024-06-15T12:00:00Z in milliseconds. *)
Definition meio_dia_15_junho_2024 : Z := 1718452800000.

(* ------------------------------------------------------------------ *)
(** ** How the adapter reads each statement of the service *)

(** Decide every substring and prefix test on a closed statement text. *)
Ltac decide_closed t :=
  let b := eval vm_compute in t in
  match b with
  | true => replace t with true by (vm_compute; reflexivity)
  | false => replace t with false by (vm_compute; reflexivity)
  end.

Ltac decide_patterns :=
  repeat match goal with
    | |- context [includes ?q ?p] => decide_closed (includes q p)
    | |- context [startsWith ?q ?p] => decide_closed (startsWith q p)
    end;
  cbv iota.

Ltac open_get := unfold getFirstAsync, getAllAsync, bind, getItem, ret.
Ltac open_run := unfold runAsync, bind, getItem, setItem, ret.

Section Dispatch.

Context (rt : Runtime).

Lemma getAll_promocao_por_id (v : jsval) (s : Storage) :
  getAllAsync rt sql_promocao_por_id [v] s
  = (map RowPromocao (filter (fun p => js_seq (JNum (Promocao.id p)) v) (tab_promocoes s)), s).
Proof.
  open_get. destruct s as [d|]; [|reflexivity].
  decide_patterns. reflexivity.
Qed.

Lemma getAll_expiradas_hoje (params : list jsval) (s : Storage) :
  getAllAsync rt sql_expiradas_hoje params s = ([], s).
Proof.
  open_get. destruct s as [d|]; [|reflexivity].
  decide_patterns. reflexivity.
Qed.

Lemma getAll_existe_no_historico (v : jsval) (s : Storage) :
  getAllAsync rt sql_existe_no_historico [v] s
  = (map RowHistorico
       (filter (fun h => js_seq (Historico.promocao_id h) v
                         && js_seq (Historico.acao h) (JStr "expirada"))
               (tab_historico s)), s).
Proof.
  open_get. destruct s as [d|]; [|reflexivity].
  decide_patterns. reflexivity.
Qed.

Lemma getAll_count_total (s : Storage) :
  getAllAsync rt sql_count_total [] s
  = (match s with Some d => [RowCount (len (promocoes d))] | None => [] end, s).
Proof.
  open_get. destruct s as [d|]; [|reflexivity].
  decide_patterns. reflexivity.
Qed.

(** The statement that counts the active rows contains the text of the one
    that counts all rows, and that pattern is tested first. *)
Lemma getAll_count_ativas (s : Storage) :
  getAllAsync rt sql_count_ativas [] s
  = (match s with Some d => [RowCount (len (promocoes d))] | None => [] end, s).
Proof.
  open_get. destruct s as [d|]; [|reflexivity].
  decide_patterns. reflexivity.
Qed.

Lemma getAll_count_expiradas (s : Storage) :
  getAllAsync rt sql_count_expiradas [] s
  = (match s with Some d => [RowCount (len (promocoes d))] | None => [] end, s).
Proof.
  open_get. destruct s as [d|]; [|reflexivity].
  decide_patterns. reflexivity.
Qed.

Lemma getAll_count_canceladas (s : Storage) :
  getAllAsync rt sql_count_canceladas [] s
  = (match s with
     | Some d => [RowCount (len (filter (fun h => js_seq (Historico.acao h) (JStr "excluída"))
                                        (historico_promocoes d)))]
     | None => []
     end, s).
Proof.
  open_get. destruct s as [d|]; [|reflexivity].
  decide_patterns. reflexivity.
Qed.

End Dispatch.

Lemma len_map {A B : Type} (f : A -> B) (l : list A) : len (map f l) = len l.
Proof. unfold len. now rewrite length_map. Qed.

Section DispatchRun.

Context (rt : Runtime).

Lemma run_insert_historico (ind : string) (params : list jsval) (s : Storage) :
  runAsync rt (sql_insert_historico ind) params s
  = (mkRunResult (Historico.id (novoHistorico_of s params)) 1,
     Some (mkDatabase (tab_promocoes s) (tab_historico s ++ [novoHistorico_of s params]))).
Proof.
  open_run. decide_patterns.
  unfold novoHistorico_of, newId_of. rewrite len_map.
  destruct s as [d|]; reflexivity.
Qed.

Lemma run_insert_promocao (params : list jsval) (s : Storage) :
  runAsync rt sql_insert_promocao params s
  = (mkRunResult (Promocao.id (novaPromocao_of s params)) 1,
     Some (mkDatabase (tab_promocoes s ++ [novaPromocao_of s params]) (tab_historico s))).
Proof.
  open_run. decide_patterns.
  unfold novaPromocao_of, newId_of. rewrite len_map.
  destruct s as [d|]; reflexivity.
Qed.

Lemma run_marcar_expiradas (hoje : jsval) (s : Storage) :
  runAsync rt sql_marcar_expiradas [hoje; hoje] s
  = (mkRunResult 0 (len (filter (vencida rt hoje) (tab_promocoes s))),
     Some (mkDatabase
             (map (fun p => if vencida rt hoje p then expirar hoje p else p) (tab_promocoes s))
             (tab_historico s))).
Proof.
  open_run. decide_patterns.
  destruct s as [d|]; reflexivity.
Qed.

Lemma run_delete_promocao (v : jsval) (s : Storage) :
  runAsync rt sql_delete_promocao [v] s
  = (mkRunResult 0 (len (tab_promocoes s)
                    - len (filter (fun p => negb (js_seq (JNum (Promocao.id p)) v))
                                  (tab_promocoes s))),
     Some (mkDatabase
             (filter (fun p => negb (js_seq (JNum (Promocao.id p)) v)) (tab_promocoes s))
             (tab_historico s))).
Proof.
  open_run. decide_patterns.
  destruct s as [d|]; reflexivity.
Qed.

Lemma update_first_none {A : Type} (f : A -> bool) (g : A -> A) (l : list A) :
  find f l = None -> update_first f g l = l.
Proof.
  induction l as [|x r IH]; simpl; [reflexivity|].
  destruct (f x); [discriminate|]. intros H. now rewrite IH.
Qed.

Lemma prefix_refl (s : string) : String.prefix s s = true.
Proof.
  induction s as [|c s IH]; simpl; [reflexivity|].
  destruct (ascii_dec c c); [exact IH|congruence].
Qed.

Lemma includes_self (p : string) : includes p p = true.
Proof.
  destruct p as [|c p]; [reflexivity|].
  cbn [includes]. now rewrite prefix_refl.
Qed.

Lemma includes_cons (c : ascii) (s p : string) :
  includes s p = true -> includes (String c s) p = true.
Proof.
  intros H. cbn [includes]. rewrite H.
  now destruct (String.prefix p (String c s)).
Qed.

Lemma includes_append_l (a b p : string) :
  includes b p = true -> includes (String.append a b) p = true.
Proof.
  intros H. induction a as [|c a IH]; [exact H|].
  cbn [String.append]. now apply includes_cons.
Qed.

Lemma sql_update_where_id (campos : list string) :
  includes (sql_update campos) pat_where_id = true.
Proof.
  unfold sql_update. apply includes_append_l. apply includes_append_l.
  apply includes_cons. apply includes_self.
Qed.

Lemma run_update (campos : list string) (params : list jsval) (s : Storage) :
  exists n,
    runAsync rt (sql_update campos) params s
    = (mkRunResult 0 n,
       Some (mkDatabase (update_por_id (sql_update campos) params (tab_promocoes s))
                        (tab_historico s))).
Proof.
  open_run. decide_patterns. rewrite sql_update_where_id.
  unfold update_por_id.
  replace (promocoes match s with Some d => d | None => mkDatabase [] [] end)
    with (tab_promocoes s) by (destruct s; reflexivity).
  replace (historico_promocoes match s with Some d => d | None => mkDatabase [] [] end)
    with (tab_historico s) by (destruct s; reflexivity).
  destruct (find _ (tab_promocoes s)) eqn:F.
  - destruct (includes (sql_update campos) "SET status = 'expirada'"); eexists; reflexivity.
  - rewrite !(update_first_none _ _ _ F).
    destruct (includes (sql_update campos) "SET status = 'expirada'"); eexists; reflexivity.
Qed.

End DispatchRun.

(* ------------------------------------------------------------------ *)
(** ** What each service operation does to the stored tables *)

Lemma js_seq_num (a b : Z) : js_seq (JNum a) (JNum b) = (a =? b).
Proof. reflexivity. Qed.

Lemma js_seq_eq (a b : jsval) : js_seq a b = true <-> a = b.
Proof.
  destruct a, b; simpl; split; intros H; try discriminate; try reflexivity.
  - apply Z.eqb_eq in H. now subst.
  - inversion H. apply Z.eqb_refl.
  - apply String.eqb_eq in H. now subst.
  - inversion H. apply String.eqb_refl.
Qed.

Lemma js_seq_refl (a : jsval) : js_seq a a = true.
Proof. now apply js_seq_eq. Qed.

Section ServiceEffects.

Context (rt : Runtime).

Lemma buscarPromocaoPorId_eq (id : Z) (s : Storage) :
  buscarPromocaoPorId rt id s
  = (match filter (fun p => Promocao.id p =? id) (tab_promocoes s) with
     | p :: _ => Some (RowPromocao p)
     | [] => None
     end, s).
Proof.
  unfold buscarPromocaoPorId, getFirstAsync, bind, ret.
  rewrite getAll_promocao_por_id.
  now destruct (filter _ (tab_promocoes s)).
Qed.

Lemma count_or_0_len (n : Z) : count_or_0 (Some (RowCount n)) = JNum n.
Proof.
  unfold count_or_0, js_or, prop, truthy. simpl.
  destruct (n =? 0) eqn:E; simpl; [|reflexivity].
  apply Z.eqb_eq in E. now subst.
Qed.

(** The record the aggregate-counts operation answers on the web adapter:
    the three counts on [promocoes] are all the number of rows. *)
Lemma obterEstatisticasPromocoes_eq (s : Storage) :
  obterEstatisticasPromocoes rt s
  = (mkEstatisticas (JNum (len (tab_promocoes s)))
                    (JNum (len (tab_promocoes s)))
                    (JNum (len (tab_promocoes s)))
                    (JNum (conta is_excluida (tab_historico s))), s).
Proof.
  unfold obterEstatisticasPromocoes, getFirstAsync, bind, ret.
  rewrite getAll_count_total, getAll_count_ativas, getAll_count_expiradas,
    getAll_count_canceladas.
  destruct s as [d|]; [|reflexivity].
  now rewrite !count_or_0_len.
Qed.

Lemma registrarExpiradas_nil (hoje : string) (s : Storage) :
  registrarExpiradas rt hoje [] s = (tt, s).
Proof. reflexivity. Qed.

(** The sweep on the web adapter: the bulk UPDATE runs, the SELECT that
    follows matches no pattern and answers no row, so the loop has nothing
    to register. *)
Lemma atualizarStatusPromocoes_eq (hoje : string) (s : Storage) :
  atualizarStatusPromocoes rt hoje s
  = (tt, Some (mkDatabase
                 (map (fun p => if vencida rt (JStr hoje) p then expirar (JStr hoje) p else p)
                      (tab_promocoes s))
                 (tab_historico s))).
Proof.
  unfold atualizarStatusPromocoes, bind.
  rewrite run_marcar_expiradas, getAll_expiradas_hoje.
  reflexivity.
Qed.

End ServiceEffects.

Lemma conta_app {A : Type} (f : A -> bool) (l : list A) (x : A) :
  conta f (l ++ [x]) = conta f l + (if f x then 1 else 0).
Proof.
  unfold conta, len. rewrite filter_app, length_app. simpl.
  destruct (f x); simpl; lia.
Qed.

Lemma conta_nonneg {A : Type} (f : A -> bool) (l : list A) : 0 <= conta f l.
Proof. unfold conta, len. lia. Qed.

Lemma conta_filter_nil {A : Type} (f : A -> bool) (l : list A) :
  filter f l = [] <-> conta f l = 0.
Proof.
  unfold conta, len. destruct (filter f l); simpl; split; intros H;
    try reflexivity; try discriminate; lia.
Qed.

Section Sweep.

Context (rt : Runtime).

Lemma existeNoHistorico_eq (v : jsval) (s : Storage) :
  getFirstAsync rt sql_existe_no_historico [v] s
  = (match filter (expirada_de v) (tab_historico s) with
     | h :: _ => Some (RowHistorico h)
     | [] => None
     end, s).
Proof.
  unfold getFirstAsync, bind, ret. rewrite getAll_existe_no_historico.
  fold (expirada_de v). now destruct (filter _ (tab_historico s)).
Qed.

Lemma registrarExpiradas_cons (hoje : string) (promocao : row) (resto : list row) (s : Storage) :
  registrarExpiradas rt hoje (promocao :: resto) s
  = registrarExpiradas rt hoje resto
      (match filter (expirada_de (prop promocao "id")) (tab_historico s) with
       | [] => Some (mkDatabase (tab_promocoes s)
                                (tab_historico s ++ [entrada_expirada hoje promocao s]))
       | _ :: _ => s
       end).
Proof.
  cbn [registrarExpiradas]. unfold bind at 1 2.
  rewrite existeNoHistorico_eq.
  destruct (filter (expirada_de (prop promocao "id")) (tab_historico s)).
  - unfold bind at 1. rewrite run_insert_historico. reflexivity.
  - reflexivity.
Qed.

(** The guard of the loop: whatever rows the loop is given, it only appends
    [expirada] entries dated [hoje], and a promotion ends with the entries it
    had when it had any, and with exactly one when it had none and is among
    the rows. *)
Lemma registrarExpiradas_spec (hoje : string) (ps : list row) (s : Storage) :
  let s' := snd (registrarExpiradas rt hoje ps s) in
  (exists novos,
      tab_historico s' = tab_historico s ++ novos
      /\ Forall (fun e => Historico.acao e = JStr "expirada"
                          /\ Historico.data_acao e = JStr hoje) novos)
  /\ forall pid,
      conta (expirada_de pid) (tab_historico s')
      = if 0 <? conta (expirada_de pid) (tab_historico s)
        then conta (expirada_de pid) (tab_historico s)
        else if existsb (fun r => js_seq (prop r "id") pid) ps then 1 else 0.
Proof.
  revert s. induction ps as [|promocao resto IH]; intros s s'.
  - subst s'. simpl. split.
    + exists []. now rewrite app_nil_r.
    + intros pid. pose proof (conta_nonneg (expirada_de pid) (tab_historico s)).
      destruct (0 <? conta (expirada_de pid) (tab_historico s)) eqn:E;
        [reflexivity|]. apply Z.ltb_ge in E. lia.
  - subst s'. rewrite registrarExpiradas_cons.
    destruct (filter (expirada_de (prop promocao "id")) (tab_historico s))
      as [|h hs] eqn:F.
    + set (e := entrada_expirada hoje promocao s).
      set (s1 := Some (mkDatabase (tab_promocoes s) (tab_historico s ++ [e]))).
      destruct (IH s1) as [[novos [Hn Hf]] Hc]. split.
      * exists (e :: novos). split.
        -- rewrite Hn. subst s1. simpl. now rewrite <- app_assoc.
        -- constructor; [now split|exact Hf].
      * intros pid. rewrite Hc. subst s1. cbn [tab_historico historico_promocoes].
        rewrite conta_app. apply conta_filter_nil in F.
        assert (He : expirada_de pid e = js_seq (prop promocao "id") pid).
        { unfold expirada_de, e, entrada_expirada, novoHistorico_of, param. simpl.
          now rewrite andb_true_r. }
        rewrite He. cbn [existsb].
        pose proof (conta_nonneg (expirada_de pid) (tab_historico s)) as Hp.
        destruct (js_seq (prop promocao "id") pid) eqn:J.
        -- apply js_seq_eq in J. rewrite <- J, F. reflexivity.
        -- rewrite Z.add_0_r. reflexivity.
    + destruct (IH s) as [[novos [Hn Hf]] Hc]. split.
      * exists novos. now split.
      * intros pid. rewrite Hc. cbn [existsb].
        destruct (0 <? conta (expirada_de pid) (tab_historico s)) eqn:E;
          [reflexivity|].
        destruct (js_seq (prop promocao "id") pid) eqn:J; [|reflexivity].
        apply js_seq_eq in J. subst pid. apply Z.ltb_ge in E.
        pose proof (conta_nonneg (expirada_de (prop promocao "id")) (tab_historico s)).
        assert (Z0 : conta (expirada_de (prop promocao "id")) (tab_historico s) = 0) by lia.
        apply conta_filter_nil in Z0. congruence.
Qed.

End Sweep.

Section Mutations.

Context (rt : Runtime).

Lemma buscarPromocaoPorId_primeira (id : Z) (s : Storage) :
  buscarPromocaoPorId rt id s
  = (option_map RowPromocao (primeira_com_id id (tab_promocoes s)), s).
Proof.
  rewrite buscarPromocaoPorId_eq. unfold primeira_com_id.
  now destruct (filter _ (tab_promocoes s)).
Qed.

Lemma criarPromocao_eq (agora : Z) (data : CriarPromocaoData) (s : Storage) :
  let novoId := newId_of (map Promocao.id (tab_promocoes s)) in
  criarPromocao rt agora data s
  = (novoId,
     Some (mkDatabase
             (tab_promocoes s ++
                [Promocao.mk novoId (JStr (produtoId data)) (JStr (produtoNome data))
                   (JNum (desconto data)) (JStr (dataInicio data)) (JStr (dataFim data))
                   (JStr (dataCriacao data)) (JStr (status_inicial rt agora data)) JNull])
             (tab_historico s ++
                [Historico.mk (newId_of (map Historico.id (tab_historico s)))
                   (JNum novoId) (JStr (produtoNome data)) (JNum (desconto data))
                   (JStr (dataInicio data)) (JStr (dataFim data)) (JStr "criada")
                   (JStr (dataCriacao data))]))).
Proof.
  intros novoId. unfold criarPromocao, bind.
  rewrite run_insert_promocao. rewrite run_insert_historico.
  reflexivity.
Qed.

Lemma update_fields_id (query : string) (params : list jsval) (p : Promocao.t) :
  Promocao.id (update_fields query params p) = Promocao.id p.
Proof.
  unfold update_fields.
  destruct (includes query "desconto = ?"), (includes query "data_fim = ?"),
    (includes query "status = ?"); reflexivity.
Qed.

Lemma map_id_update_first (f : Promocao.t -> bool) (g : Promocao.t -> Promocao.t)
    (l : list Promocao.t) :
  (forall p, Promocao.id (g p) = Promocao.id p) ->
  map Promocao.id (update_first f g l) = map Promocao.id l.
Proof.
  intros Hg. induction l as [|x r IH]; simpl; [reflexivity|].
  destruct (f x); simpl; [now rewrite Hg|now rewrite IH].
Qed.

(** UPDATE ... WHERE id = ? never touches an identifier. *)
Lemma map_id_update_por_id (query : string) (params : list jsval) (l : list Promocao.t) :
  map Promocao.id (update_por_id query params l) = map Promocao.id l.
Proof.
  unfold update_por_id.
  destruct (includes query "SET status = 'expirada'");
    apply map_id_update_first; intros p; [reflexivity|apply update_fields_id].
Qed.

Lemma primeira_com_id_some (id : Z) (l : list Promocao.t) :
  In id (map Promocao.id l) -> exists p, primeira_com_id id l = Some p.
Proof.
  unfold primeira_com_id. intros H. apply in_map_iff in H as [p [E I]].
  assert (F : In p (filter (fun q => Promocao.id q =? id) l)).
  { apply filter_In. split; [exact I|]. now apply Z.eqb_eq. }
  destruct (filter _ l) as [|q r]; [contradiction|now exists q].
Qed.

Lemma primeira_com_id_none (id : Z) (l : list Promocao.t) :
  ~ In id (map Promocao.id l) -> primeira_com_id id l = None.
Proof.
  unfold primeira_com_id. intros H.
  destruct (filter _ l) as [|q r] eqn:F; [reflexivity|exfalso].
  assert (I : In q (filter (fun q => Promocao.id q =? id) l)) by (rewrite F; now left).
  apply filter_In in I as [I E]. apply Z.eqb_eq in E.
  apply H. apply in_map_iff. now exists q.
Qed.

Lemma primeira_com_id_ext (id : Z) (l l' : list Promocao.t) :
  map Promocao.id l = map Promocao.id l' ->
  primeira_com_id id l = None <-> primeira_com_id id l' = None.
Proof.
  intros E. split; intros H.
  - destruct (in_dec Z.eq_dec id (map Promocao.id l')) as [I|N];
      [|now apply primeira_com_id_none].
    rewrite <- E in I. apply primeira_com_id_some in I as [p Hp]. congruence.
  - destruct (in_dec Z.eq_dec id (map Promocao.id l)) as [I|N];
      [|now apply primeira_com_id_none].
    rewrite E in I. apply primeira_com_id_some in I as [p Hp]. congruence.
Qed.

Lemma atualizarPromocao_eq (hoje : string) (id : Z) (updates : Updates) (s : Storage) :
  updates <> [] ->
  let tabela := update_por_id (sql_update (map fst updates))
                              (map snd updates ++ [JNum id]) (tab_promocoes s) in
  atualizarPromocao rt hoje id updates s
  = (tt,
     Some (mkDatabase tabela
             (if defined (get_field updates "desconto") then
                match primeira_com_id id tabela with
                | Some p =>
                    tab_historico s ++
                      [entrada_atualizada hoje id updates (RowPromocao p) s]
                | None => tab_historico s
                end
              else tab_historico s))).
Proof.
  intros Hne tabela. unfold atualizarPromocao.
  destruct updates as [|u us]; [congruence|].
  replace (len (map fst (u :: us)) =? 0) with false
    by (unfold len; simpl length; symmetry; apply Z.eqb_neq; lia).
  unfold bind at 1.
  destruct (run_update rt (map fst (u :: us)) (map snd (u :: us) ++ [JNum id]) s)
    as [n Hrun].
  rewrite Hrun. fold tabela.
  destruct (defined (get_field (u :: us) "desconto")); [|reflexivity].
  unfold bind at 1. rewrite buscarPromocaoPorId_primeira.
  cbn [tab_promocoes promocoes].
  destruct (primeira_com_id id tabela) as [p|]; [|reflexivity].
  cbn [option_map]. unfold bind at 1. rewrite run_insert_historico.
  reflexivity.
Qed.

Lemma excluirPromocao_eq (hoje : string) (id : Z) (s : Storage) :
  excluirPromocao rt hoje id s
  = (tt,
     Some (mkDatabase
             (filter (fun p => negb (Promocao.id p =? id)) (tab_promocoes s))
             (match primeira_com_id id (tab_promocoes s) with
              | Some p => tab_historico s ++ [entrada_excluida hoje id (RowPromocao p) s]
              | None => tab_historico s
              end))).
Proof.
  unfold excluirPromocao. unfold bind at 1.
  rewrite buscarPromocaoPorId_primeira.
  destruct (primeira_com_id id (tab_promocoes s)) as [p|]; cbn [option_map].
  - unfold bind at 1 2. rewrite run_insert_historico.
    unfold ret at 1. unfold bind at 1. rewrite run_delete_promocao. reflexivity.
  - unfold bind at 1. unfold ret at 1. unfold bind at 1.
    rewrite run_delete_promocao. reflexivity.
Qed.

End Mutations.

(* ------------------------------------------------------------------ *)
(** ** Aggregate counts *)

(** C1, at a store with one expired promotion and no active one: the
    aggregate-counts operation answers [ativas = 1] although no promotion row
    has status 'ativa' (and [total = 1], [expiradas = 1], [canceladas = 0]).
    The statement that counts the active rows contains the text of the
    statement that counts all rows, whose pattern the adapter tests first. *)
Theorem estatisticas_ativas_conta_todas (rt : Runtime) :
  fst (obterEstatisticasPromocoes rt loja_uma_expirada)
  = mkEstatisticas (JNum 1) (JNum 1) (JNum 1) (JNum 0)
  /\ conta is_ativa (tab_promocoes loja_uma_expirada) = 0
  /\ conta is_expirada (tab_promocoes loja_uma_expirada) = 1.
Proof.
  rewrite obterEstatisticasPromocoes_eq. repeat split.
Qed.

(** What does hold for every store: [total] is the number of promotion rows
    and [canceladas] the number of history rows with action 'excluída';
    [ativas] and [expiradas] repeat [total]. *)
Lemma estatisticas_total_canceladas (rt : Runtime) (s : Storage) :
  let e := fst (obterEstatisticasPromocoes rt s) in
  total e = JNum (len (tab_promocoes s))
  /\ canceladas e = JNum (conta is_excluida (tab_historico s))
  /\ ativas e = total e
  /\ expiradas e = total e.
Proof.
  intros e. subst e. rewrite obterEstatisticasPromocoes_eq. repeat split.
Qed.

(* ------------------------------------------------------------------ *)
(** ** The expiration sweep *)

Lemma atualizarStatusPromocoes_historico (rt : Runtime) (hoje : string) (s : Storage) :
  tab_historico (snd (atualizarStatusPromocoes rt hoje s)) = tab_historico s.
Proof. now rewrite atualizarStatusPromocoes_eq. Qed.

(** Two runs of the loop over any rows: together they add at most one
    [expirada] entry for a promotion, and the second adds none for a
    promotion that has one. *)
Lemma registrarExpiradas_twice (rt : Runtime) (hoje1 hoje2 : string) (ps1 ps2 : list row)
    (s : Storage) (pid : jsval) :
  let s1 := snd (registrarExpiradas rt hoje1 ps1 s) in
  let s2 := snd (registrarExpiradas rt hoje2 ps2 s1) in
  conta (expirada_de pid) (tab_historico s2)
    <= Z.max 1 (conta (expirada_de pid) (tab_historico s))
  /\ (0 < conta (expirada_de pid) (tab_historico s1) ->
      conta (expirada_de pid) (tab_historico s2)
      = conta (expirada_de pid) (tab_historico s1)).
Proof.
  intros s1 s2.
  destruct (registrarExpiradas_spec rt hoje1 ps1 s) as [_ H1].
  destruct (registrarExpiradas_spec rt hoje2 ps2 s1) as [_ H2].
  fold s1 in H1. fold s2 in H2. specialize (H1 pid). specialize (H2 pid).
  pose proof (conta_nonneg (expirada_de pid) (tab_historico s)) as P0.
  repeat match goal with
    | H : context [if ?b then _ else _] |- _ => destruct b eqn:?
    end;
  repeat match goal with
    | H : (_ <? _) = true |- _ => apply Z.ltb_lt in H
    | H : (_ <? _) = false |- _ => apply Z.ltb_ge in H
    end;
  split; lia.
Qed.

(** C2: two runs of the expiration sweep in sequence, on any store and with
    any two evaluation dates, add at most one history entry with action
    'expirada' for a promotion identifier, and the second run adds none for
    a promotion that has one after the first. *)
Theorem sweep_twice_at_most_one_expirada
    (rt : Runtime) (hoje1 hoje2 : string) (s : Storage) (pid : jsval) :
  let s1 := snd (atualizarStatusPromocoes rt hoje1 s) in
  let s2 := snd (atualizarStatusPromocoes rt hoje2 s1) in
  conta (expirada_de pid) (tab_historico s2)
    - conta (expirada_de pid) (tab_historico s) <= 1
  /\ (0 < conta (expirada_de pid) (tab_historico s1) ->
      conta (expirada_de pid) (tab_historico s2)
      = conta (expirada_de pid) (tab_historico s1)).
Proof.
  intros s1 s2. subst s2 s1.
  rewrite !atualizarStatusPromocoes_historico. split; [lia|reflexivity].
Qed.

(** The part of the sweep that reaches the table: every active promotion
    whose end date is before [hoje] becomes 'expirada' with expiration date
    [hoje], at its place in the table; every other row is left as it is. *)
Lemma sweep_marca_vencidas (rt : Runtime) (hoje : string) (s : Storage) (n : nat)
    (p : Promocao.t) :
  nth_error (tab_promocoes s) n = Some p ->
  nth_error (tab_promocoes (snd (atualizarStatusPromocoes rt hoje s))) n
  = Some (if js_lt rt (Promocao.data_fim p) (JStr hoje) && is_ativa p
          then Promocao.set_data_expiracao (JStr hoje)
                 (Promocao.set_status (JStr "expirada") p)
          else p).
Proof.
  intros H. rewrite atualizarStatusPromocoes_eq. cbn [snd tab_promocoes promocoes].
  rewrite nth_error_map, H. reflexivity.
Qed.

(** C3, at a store with one active promotion that ended on 2024-01-31 and a
    sweep on 2024-02-01: the promotion becomes 'expirada' with expiration
    date 2024-02-01, but the history receives no entry at all (it still
    holds the 'criada' entry alone), so none with action 'expirada' for
    promotion 1.  The SELECT that should hand the
    expired promotions to the loop matches no pattern of the adapter. *)
Theorem sweep_expira_sem_registrar (rt : Runtime) :
  let s' := snd (atualizarStatusPromocoes rt "2024-02-01" loja_uma_vencida) in
  tab_promocoes s'
  = [Promocao.mk 1 (JStr "p1") (JStr "Cafe") (JNum 10) (JStr "2024-01-01")
       (JStr "2024-01-31") (JStr "2024-01-01") (JStr "expirada") (JStr "2024-02-01")]
  /\ tab_historico s' = [entrada_cafe_criada]
  /\ conta (expirada_de (JNum 1)) (tab_historico s') = 0.
Proof.
  intros s'. subst s'. rewrite atualizarStatusPromocoes_eq. repeat split.
Qed.

(* ------------------------------------------------------------------ *)
(** ** Creation *)

(** C4: the promotion [criarPromocao] stores is the last row of the table,
    carries the identifier the call answers, and its status is 'ativa' when
    the end date of the request is a time strictly after the time of the
    call, and 'expirada' in every other case (an end date that is not a date
    included). *)
Theorem criarPromocao_status_inicial
    (rt : Runtime) (agora : Z) (data : CriarPromocaoData) (s : Storage) :
  let futuro := exists t, Date_getTime rt (JStr (dataFim data)) = Some t /\ agora < t in
  exists p,
    tab_promocoes (snd (criarPromocao rt agora data s)) = tab_promocoes s ++ [p]
    /\ Promocao.id p = fst (criarPromocao rt agora data s)
    /\ Promocao.data_fim p = JStr (dataFim data)
    /\ (Promocao.status p = JStr "ativa" <-> futuro)
    /\ (Promocao.status p = JStr "expirada" <-> ~ futuro).
Proof.
  intros futuro. rewrite criarPromocao_eq. cbn [fst snd tab_promocoes promocoes].
  eexists. split; [reflexivity|]. cbn [Promocao.id Promocao.data_fim Promocao.status].
  split; [reflexivity|]. split; [reflexivity|].
  unfold status_inicial, num_gt, futuro.
  destruct (Date_getTime rt (JStr (dataFim data))) as [t|].
  - destruct (agora <? t) eqn:E.
    + apply Z.ltb_lt in E. split; split; intros H; try reflexivity; try discriminate.
      * now exists t.
      * exfalso. apply H. now exists t.
    + apply Z.ltb_ge in E. split; split; intros H; try reflexivity; try discriminate.
      * destruct H as [t' [Ht Hlt]]. inversion Ht. subst. lia.
      * intros [t' [Ht Hlt]]. inversion Ht. subst. lia.
  - split; split; intros H; try reflexivity; try discriminate.
    + destruct H as [t' [Ht _]]. discriminate.
    + intros [t' [Ht _]]. discriminate.
Qed.

(* ------------------------------------------------------------------ *)
(** ** Update *)

Lemma len_app1 {A : Type} (l : list A) (x : A) : len (l ++ [x]) = len l + 1.
Proof. unfold len. rewrite length_app. simpl. lia. Qed.

Lemma primeira_apos_update (id : Z) (query : string) (params : list jsval)
    (l : list Promocao.t) :
  In id (map Promocao.id l) ->
  exists p, primeira_com_id id (update_por_id query params l) = Some p.
Proof.
  intros H. apply primeira_com_id_some. now rewrite map_id_update_por_id.
Qed.

(** C5: on a store that holds a promotion with identifier [id], an update
    whose field set carries no discount leaves the history as it is (so its
    entry count too), and an update whose field set carries a discount
    appends exactly one entry, with action 'atualizada', for that
    promotion. *)
Theorem atualizarPromocao_historico
    (rt : Runtime) (hoje : string) (id : Z) (updates : Updates) (s : Storage) :
  In id (map Promocao.id (tab_promocoes s)) ->
  let s' := snd (atualizarPromocao rt hoje id updates s) in
  (defined (get_field updates "desconto") = false ->
     tab_historico s' = tab_historico s
     /\ len (tab_historico s') = len (tab_historico s))
  /\ (defined (get_field updates "desconto") = true ->
     len (tab_historico s') = len (tab_historico s) + 1
     /\ exists e,
         tab_historico s' = tab_historico s ++ [e]
         /\ Historico.acao e = JStr "atualizada"
         /\ Historico.promocao_id e = JNum id).
Proof.
  intros Hin s'. subst s'.
  destruct updates as [|u us].
  - split; intros H; [now split|discriminate].
  - rewrite atualizarPromocao_eq by discriminate.
    cbn [snd tab_historico historico_promocoes].
    split; intros H; rewrite H.
    + now split.
    + destruct (primeira_apos_update id (sql_update (map fst (u :: us)))
                  (map snd (u :: us) ++ [JNum id]) _ Hin) as [p Hp].
      rewrite Hp. split; [apply len_app1|].
      eexists. split; [reflexivity|]. now split.
Qed.

(** C5 on the store with promotion 1: an update of the start date alone, and
    an update of the discount. *)
Lemma atualizarPromocao_historico_witness :
  tab_historico
    (snd (atualizarPromocao runtime_iso "2024-01-15" 1
            [("dataInicio", JStr "2024-01-05")] loja_uma_vencida))
  = tab_historico loja_uma_vencida
  /\ len (tab_historico
            (snd (atualizarPromocao runtime_iso "2024-01-15" 1
                    [("desconto", JNum 20)] loja_uma_vencida)))
     = len (tab_historico loja_uma_vencida) + 1.
Proof.
  split.
  - apply (proj1 (atualizarPromocao_historico runtime_iso "2024-01-15" 1
                    [("dataInicio", JStr "2024-01-05")] loja_uma_vencida
                    (or_introl eq_refl))).
    reflexivity.
  - apply (proj2 (atualizarPromocao_historico runtime_iso "2024-01-15" 1
                    [("desconto", JNum 20)] loja_uma_vencida
                    (or_introl eq_refl))).
    reflexivity.
Defined.

(** C6, at the store with promotion 1 ("Cafe", 2024-01-01 to 2024-01-31) and
    an update of its discount alone, on 2024-01-15: the 'atualizada' entry
    records the date of the call, but [undefined] for the product name, the
    start date and the end date, which the update did not touch.  The row
    the adapter reads back has the keys [produto_nome], [data_inicio],
    [data_fim]; the service reads [produtoNome], [dataInicio], [dataFim]. *)
Lemma atualizada_sem_nome_nem_datas :
  tab_promocoes loja_uma_vencida = [promocao_cafe]
  /\ tab_historico
       (snd (atualizarPromocao runtime_iso "2024-01-15" 1
               [("desconto", JNum 20)] loja_uma_vencida))
     = [entrada_cafe_criada;
        Historico.mk 2 (JNum 1) JUndefined (JNum 20) JUndefined JUndefined
          (JStr "atualizada") (JStr "2024-01-15")]
  /\ ~ registra_dados_de promocao_cafe "2024-01-15"
         (Historico.mk 2 (JNum 1) JUndefined (JNum 20) JUndefined JUndefined
            (JStr "atualizada") (JStr "2024-01-15")).
Proof.
  split; [reflexivity|]. split; [vm_compute; reflexivity|].
  intros [_ [H _]]. discriminate H.
Qed.

(* ------------------------------------------------------------------ *)
(** ** Delete *)

Lemma filter_outros_ausente (id : Z) (l : list Promocao.t) :
  ~ In id (map Promocao.id l) ->
  filter (fun p => negb (Promocao.id p =? id)) l = l.
Proof.
  induction l as [|x r IH]; simpl; [reflexivity|]. intros H.
  destruct (Promocao.id x =? id) eqn:E.
  - apply Z.eqb_eq in E. exfalso. apply H. now left.
  - simpl. rewrite IH; [reflexivity|]. intros I. apply H. now right.
Qed.

Lemma filter_outros_remove (id : Z) (l : list Promocao.t) :
  ~ In id (map Promocao.id (filter (fun p => negb (Promocao.id p =? id)) l)).
Proof.
  intros H. apply in_map_iff in H as [p [E I]].
  apply filter_In in I as [_ N]. subst id. now rewrite Z.eqb_refl in N.
Qed.

(** C7: deleting an identifier that the table holds appends exactly one
    history entry, with action 'excluída', for it, and removes the rows with
    that identifier and no other, so that a read by identifier answers
    nothing afterwards; deleting an identifier that the table does not hold
    leaves both tables as they are.  The operation answers in both cases. *)
Theorem excluirPromocao_efeito (rt : Runtime) (hoje : string) (id : Z) (s : Storage) :
  let s' := snd (excluirPromocao rt hoje id s) in
  (In id (map Promocao.id (tab_promocoes s)) ->
     (exists e,
         tab_historico s' = tab_historico s ++ [e]
         /\ Historico.acao e = JStr "excluída"
         /\ Historico.promocao_id e = JNum id
         /\ Historico.data_acao e = JStr hoje)
     /\ tab_promocoes s' = filter (fun p => negb (Promocao.id p =? id)) (tab_promocoes s)
     /\ ~ In id (map Promocao.id (tab_promocoes s'))
     /\ fst (buscarPromocaoPorId rt id s') = None)
  /\ (~ In id (map Promocao.id (tab_promocoes s)) ->
     tab_promocoes s' = tab_promocoes s
     /\ tab_historico s' = tab_historico s).
Proof.
  intros s'. subst s'. rewrite excluirPromocao_eq.
  cbn [snd tab_historico tab_promocoes historico_promocoes promocoes].
  split; intros H.
  - destruct (primeira_com_id_some id _ H) as [p Hp]. rewrite Hp.
    split; [eexists; split; [reflexivity|now repeat split]|].
    split; [reflexivity|]. split; [apply filter_outros_remove|].
    rewrite buscarPromocaoPorId_primeira. cbn [fst tab_promocoes promocoes].
    rewrite primeira_com_id_none; [reflexivity|apply filter_outros_remove].
  - rewrite (primeira_com_id_none id _ H).
    split; [now apply filter_outros_ausente|reflexivity].
Qed.

(** C7 on the store with promotion 1: deleting 1, and deleting 7. *)
Lemma excluirPromocao_efeito_witness :
  fst (buscarPromocaoPorId runtime_iso 1
         (snd (excluirPromocao runtime_iso "2024-02-03" 1 loja_uma_vencida))) = None
  /\ tab_promocoes (snd (excluirPromocao runtime_iso "2024-02-03" 7 loja_uma_vencida))
     = tab_promocoes loja_uma_vencida.
Proof.
  split.
  - apply (proj1 (excluirPromocao_efeito runtime_iso "2024-02-03" 1 loja_uma_vencida)).
    simpl. now left.
  - apply (proj2 (excluirPromocao_efeito runtime_iso "2024-02-03" 7 loja_uma_vencida)).
    simpl. intros [H|[]]. discriminate H.
Defined.

(* ------------------------------------------------------------------ *)
(** ** The history is append-only *)

(** No read writes the storage. *)
Lemma getAllAsync_le (rt : Runtime) (query : string) (params : list jsval) (s : Storage) :
  snd (getAllAsync rt query params s) = s.
Proof.
  unfold getAllAsync, bind, getItem, ret. destruct s as [d|]; [|reflexivity].
  repeat match goal with
    | |- context [if ?b then _ else _] => destruct b; try reflexivity
    end.
Qed.

Lemma executar_estende (rt : Runtime) (op : operacao) (s : Storage) :
  exists novos, tab_historico (executar rt op s) = tab_historico s ++ novos.
Proof.
  destruct op; cbn [executar].
  - exists []. now rewrite app_nil_r.
  - rewrite criarPromocao_eq. eexists. reflexivity.
  - unfold buscarTodasPromocoes. rewrite getAllAsync_le.
    exists []. now rewrite app_nil_r.
  - unfold buscarHistoricoCompleto. rewrite getAllAsync_le.
    exists []. now rewrite app_nil_r.
  - destruct updates as [|u us]; [exists []; now rewrite app_nil_r|].
    rewrite atualizarPromocao_eq by discriminate.
    cbn [snd tab_historico historico_promocoes].
    destruct (defined _); [destruct (primeira_com_id _ _)|];
      try (eexists; reflexivity); exists []; now rewrite app_nil_r.
  - rewrite excluirPromocao_eq. cbn [snd tab_historico historico_promocoes].
    destruct (primeira_com_id _ _);
      try (eexists; reflexivity); exists []; now rewrite app_nil_r.
  - rewrite atualizarStatusPromocoes_historico. exists []. now rewrite app_nil_r.
  - rewrite obterEstatisticasPromocoes_eq. exists []. now rewrite app_nil_r.
  - unfold buscarPromocoesPorStatus. rewrite getAllAsync_le.
    exists []. now rewrite app_nil_r.
  - rewrite buscarPromocaoPorId_eq. exists []. now rewrite app_nil_r.
Qed.

(** C8: after any sequence of service calls the history is the history
    before it followed by new entries: every entry that was there stays at
    its place with every field as it was. *)
Theorem historico_somente_acrescenta (rt : Runtime) (ops : list operacao) (s : Storage) :
  exists novos,
    tab_historico (executar_todas rt ops s) = tab_historico s ++ novos.
Proof.
  revert s. induction ops as [|op ops IH]; intros s.
  - exists []. now rewrite app_nil_r.
  - unfold executar_todas. cbn [fold_left]. fold (executar_todas rt ops (executar rt op s)).
    destruct (IH (executar rt op s)) as [n2 H2].
    destruct (executar_estende rt op s) as [n1 H1].
    exists (n1 ++ n2). now rewrite H2, H1, app_assoc.
Qed.

(* ------------------------------------------------------------------ *)
(** ** Statements the web adapter does not recognise *)

Ltac split_forallb H :=
  repeat match type of H with
    | (_ && _) = true => let H1 := fresh "N" in apply andb_prop in H as [H1 H];
                         apply negb_true_iff in H1
    end.

(** C9: for a statement that contains none of the substrings [getAllAsync]
    recognises, [getAllAsync] answers the empty list; for a statement that
    starts with none of the prefixes [runAsync] recognises, [runAsync]
    answers [lastInsertRowId = 0] and [changes = 0]; in both cases the
    storage is left as it is, and the call answers. *)
Theorem statement_not_recognised
    (rt : Runtime) (query : string) (params : list jsval) (s : Storage) :
  (nenhum_padrao query = true -> getAllAsync rt query params s = ([], s))
  /\ (nenhum_padrao query = true -> getFirstAsync rt query params s = (None, s))
  /\ (nenhum_prefixo query = true -> runAsync rt query params s = (mkRunResult 0 0, s)).
Proof.
  assert (G : nenhum_padrao query = true -> getAllAsync rt query params s = ([], s)).
  { intros H. unfold nenhum_padrao, padroes_getAll in H. cbn [forallb] in H.
    split_forallb H.
    unfold getAllAsync, bind, getItem, ret. destruct s as [d|]; [|reflexivity].
    now rewrite N, N0, N1, N2, N3, N4, N5, N6, N7, N8, N9. }
  split; [exact G|]. split.
  - intros H. unfold getFirstAsync, bind, ret. now rewrite (G H).
  - intros H. unfold nenhum_prefixo, prefixos_run in H. cbn [forallb] in H.
    split_forallb H.
    unfold runAsync, bind, getItem, ret. now rewrite N, N0, N1, N2.
Qed.

(** C9 on a statement of neither kind, on the store with promotion 1. *)
Lemma statement_not_recognised_witness :
  getAllAsync runtime_iso "PRAGMA journal_mode = WAL" [] loja_uma_vencida
  = ([], loja_uma_vencida)
  /\ runAsync runtime_iso "PRAGMA journal_mode = WAL" [] loja_uma_vencida
     = (mkRunResult 0 0, loja_uma_vencida).
Proof.
  split.
  - apply (proj1 (statement_not_recognised runtime_iso "PRAGMA journal_mode = WAL" []
                    loja_uma_vencida)).
    vm_compute. reflexivity.
  - apply (proj2 (proj2 (statement_not_recognised runtime_iso "PRAGMA journal_mode = WAL" []
                           loja_uma_vencida))).
    vm_compute. reflexivity.
Defined.

(* ------------------------------------------------------------------ *)
(** ** Generated identifiers *)

Lemma Math_max_ge (l : list Z) (x : Z) : In x l -> x <= Math_max l.
Proof.
  induction l as [|y r IH]; [intros []|].
  intros [E|I].
  - subst y. destruct r; cbn [Math_max]; lia.
  - destruct r as [|z r']; [destruct I|].
    specialize (IH I). cbn [Math_max] in *. lia.
Qed.

Lemma Math_max_in (l : list Z) : l <> [] -> In (Math_max l) l.
Proof.
  induction l as [|y r IH]; [congruence|]. intros _.
  destruct r as [|z r']; [now left|].
  assert (H : In (Math_max (z :: r')) (z :: r')) by (apply IH; discriminate).
  change (Math_max (y :: z :: r')) with (Z.max y (Math_max (z :: r'))).
  destruct (Z.max_spec y (Math_max (z :: r'))) as [[_ E]|[_ E]]; rewrite E.
  - now right.
  - now left.
Qed.

Lemma round_double_exact (z : Z) : Z.abs z <= two53 -> round_double z = z.
Proof.
  intros H. unfold round_double. cbv zeta. apply Z.leb_le in H. now rewrite H.
Qed.

(** Adding one to a safe integer is exact. *)
Lemma js_add_seguro (a : Z) : inteiro_seguro a -> js_add a 1 = a + 1.
Proof.
  intros H. unfold js_add. apply round_double_exact.
  unfold inteiro_seguro in H. lia.
Qed.

Lemma Math_max_seguro (l : list Z) :
  l <> [] -> Forall inteiro_seguro l -> inteiro_seguro (Math_max l).
Proof.
  intros N F. apply (proj1 (Forall_forall _ _) F). now apply Math_max_in.
Qed.

Lemma newId_of_seguro (ids : list Z) :
  Forall inteiro_seguro ids ->
  newId_of ids = if 0 <? len ids then Math_max ids + 1 else 1.
Proof.
  intros F. unfold newId_of. destruct ids as [|x r]; [reflexivity|].
  destruct (0 <? len (x :: r)); [|reflexivity].
  apply js_add_seguro, Math_max_seguro; [discriminate|exact F].
Qed.

Lemma newId_of_novo (ids : list Z) :
  Forall inteiro_seguro ids -> identificador_novo ids (newId_of ids).
Proof.
  intros F. rewrite (newId_of_seguro ids F).
  unfold identificador_novo, len. destruct ids as [|x r].
  - split; [reflexivity|]. split; [congruence|intros i []].
  - replace (0 <? Z.of_nat (length (x :: r))) with true
      by (symmetry; apply Z.ltb_lt; simpl length; lia).
    split; [discriminate|]. split.
    + intros _. exists (Math_max (x :: r)). split; [apply Math_max_in; discriminate|].
      split; [apply Math_max_ge|reflexivity].
    + intros i I. apply Math_max_ge in I. lia.
Qed.

Lemma prefix_split (p q : string) :
  String.prefix p q = true -> exists r, q = String.append p r.
Proof.
  revert q. induction p as [|c p IH]; intros q H.
  - now exists q.
  - destruct q as [|d q]; [discriminate|]. simpl in H.
    destruct (ascii_dec c d) as [E|]; [|discriminate]. subst d.
    destruct (IH q H) as [r Hr]. exists r. simpl. now rewrite Hr.
Qed.

Lemma insert_historico_nao_promocoes (query : string) :
  startsWith query pre_insert_historico = true ->
  startsWith query pre_insert_promocoes = false.
Proof.
  intros H. apply prefix_split in H as [r Hr]. subst query. reflexivity.
Qed.

Lemma db_promocoes (s : Storage) :
  promocoes match s with Some d => d | None => mkDatabase [] [] end = tab_promocoes s.
Proof. now destruct s. Qed.

Lemma db_historico (s : Storage) :
  historico_promocoes match s with Some d => d | None => mkDatabase [] [] end
  = tab_historico s.
Proof. now destruct s. Qed.

(** C10 fails as stated: on a table that holds the identifier 2^53, an
    INSERT through either adapter answers 2^53 again, since 2^53 + 1 is not a
    number and the sum rounds back to 2^53: the generated identifier is
    neither distinct from nor greater than the one present. *)
Lemma insert_repete_identificador :
  In two53 (map Promocao.id (tab_promocoes loja_id_2_53))
  /\ lastInsertRowId (fst (runAsync runtime_iso sql_insert_promocao [] loja_id_2_53))
     = two53
  /\ lastInsertRowId (fst (WebDatabaseImpl.runAsync sql_insert_promocao [] loja_id_2_53))
     = two53
  /\ In two53 (map Historico.id (tab_historico loja_id_2_53))
  /\ lastInsertRowId
       (fst (runAsync runtime_iso (sql_insert_historico "       ") [] loja_id_2_53))
     = two53
  /\ ~ identificador_novo (map Promocao.id (tab_promocoes loja_id_2_53))
        (lastInsertRowId (fst (runAsync runtime_iso sql_insert_promocao [] loja_id_2_53))).
Proof.
  split; [now left|]. split; [vm_compute; reflexivity|].
  split; [vm_compute; reflexivity|]. split; [now left|].
  split; [vm_compute; reflexivity|].
  intros [_ [_ F]]. destruct (F two53 (or_introl eq_refl)) as [_ N].
  apply N. vm_compute. reflexivity.
Qed.

(** C10, amended: an INSERT into either table, through the adapter of
    [web.ts] and through the one of [database.ts], on a table whose
    identifiers are all safe integers (of magnitude below 2^53), appends one
    row whose identifier is the one the call answers: one more than the
    largest identifier in that table, or 1 when the table is empty, hence
    above and distinct from every identifier the table held. *)
Theorem insert_identificador_novo
    (rt : Runtime) (query : string) (params : list jsval) (s : Storage) :
  (startsWith query pre_insert_promocoes = true ->
   Forall inteiro_seguro (map Promocao.id (tab_promocoes s)) ->
     (exists p,
         tab_promocoes (snd (runAsync rt query params s)) = tab_promocoes s ++ [p]
         /\ Promocao.id p = lastInsertRowId (fst (runAsync rt query params s))
         /\ identificador_novo (map Promocao.id (tab_promocoes s)) (Promocao.id p))
     /\ (exists p,
         tab_promocoes (snd (WebDatabaseImpl.runAsync query params s))
         = tab_promocoes s ++ [p]
         /\ Promocao.id p = lastInsertRowId (fst (WebDatabaseImpl.runAsync query params s))
         /\ identificador_novo (map Promocao.id (tab_promocoes s)) (Promocao.id p)))
  /\ (startsWith query pre_insert_historico = true ->
   Forall inteiro_seguro (map Historico.id (tab_historico s)) ->
     (exists h,
         tab_historico (snd (runAsync rt query params s)) = tab_historico s ++ [h]
         /\ Historico.id h = lastInsertRowId (fst (runAsync rt query params s))
         /\ identificador_novo (map Historico.id (tab_historico s)) (Historico.id h))
     /\ (exists h,
         tab_historico (snd (WebDatabaseImpl.runAsync query params s))
         = tab_historico s ++ [h]
         /\ Historico.id h = lastInsertRowId (fst (WebDatabaseImpl.runAsync query params s))
         /\ identificador_novo (map Historico.id (tab_historico s)) (Historico.id h))).
Proof.
  split; intros H F.
  - unfold runAsync, WebDatabaseImpl.runAsync, bind, getItem, setItem, ret.
    fold pre_insert_promocoes. rewrite H. cbv zeta.
    rewrite !db_promocoes, !db_historico. cbn [fst snd tab_promocoes promocoes].
    rewrite <- len_map with (f := Promocao.id).
    split; eexists; (split; [reflexivity|]); (split; [reflexivity|]);
      apply (newId_of_novo _ F).
  - pose proof (insert_historico_nao_promocoes query H) as N.
    unfold runAsync, WebDatabaseImpl.runAsync, bind, getItem, setItem, ret.
    fold pre_insert_promocoes pre_insert_historico. rewrite N, H. cbv zeta.
    rewrite !db_promocoes, !db_historico. cbn [fst snd tab_historico historico_promocoes].
    rewrite <- len_map with (f := Historico.id).
    split; eexists; (split; [reflexivity|]); (split; [reflexivity|]);
      apply (newId_of_novo _ F).
Qed.

(** C10 amended, on the two INSERT statements of the service, on the store
    with promotion 1 and its 'criada' entry. *)
Lemma insert_identificador_novo_witness :
  (exists p,
      tab_promocoes (snd (runAsync runtime_iso sql_insert_promocao [] loja_uma_vencida))
      = tab_promocoes loja_uma_vencida ++ [p]
      /\ Promocao.id p
         = lastInsertRowId (fst (runAsync runtime_iso sql_insert_promocao [] loja_uma_vencida))
      /\ identificador_novo (map Promocao.id (tab_promocoes loja_uma_vencida)) (Promocao.id p))
  /\ (exists h,
      tab_historico
        (snd (runAsync runtime_iso (sql_insert_historico "       ") [] loja_uma_vencida))
      = tab_historico loja_uma_vencida ++ [h]
      /\ Historico.id h
         = lastInsertRowId
             (fst (runAsync runtime_iso (sql_insert_historico "       ") [] loja_uma_vencida))
      /\ identificador_novo (map Historico.id (tab_historico loja_uma_vencida))
                            (Historico.id h)).
Proof.
  split.
  - apply (proj1 (insert_identificador_novo runtime_iso sql_insert_promocao []
                    loja_uma_vencida)).
    + vm_compute. reflexivity.
    + repeat constructor.
  - apply (proj2 (insert_identificador_novo runtime_iso (sql_insert_historico "       ") []
                    loja_uma_vencida)).
    + vm_compute. reflexivity.
    + repeat constructor.
Defined.

(* ------------------------------------------------------------------ *)
(** ** The examples of the specification, run *)

Example criar_com_fim_ontem :
  tab_promocoes
    (snd (criarPromocao runtime_iso meio_dia_15_junho_2024
            (mkCriarPromocaoData "p2" "Cha" 5 "2024-06-01" "2024-06-14" "2024-06-15") None))
  = [Promocao.mk 1 (JStr "p2") (JStr "Cha") (JNum 5) (JStr "2024-06-01")
       (JStr "2024-06-14") (JStr "2024-06-15") (JStr "expirada") JNull].
Proof. vm_compute. reflexivity. Qed.

Example criar_com_fim_ano_que_vem :
  tab_promocoes
    (snd (criarPromocao runtime_iso meio_dia_15_junho_2024
            (mkCriarPromocaoData "p2" "Cha" 5 "2024-06-01" "2025-06-15" "2024-06-15") None))
  = [Promocao.mk 1 (JStr "p2") (JStr "Cha") (JNum 5) (JStr "2024-06-01")
       (JStr "2025-06-15") (JStr "2024-06-15") (JStr "ativa") JNull].
Proof. vm_compute. reflexivity. Qed.

(** The stores of the running example are what the service produces. *)
Example loja_uma_vencida_criada :
  snd (criarPromocao runtime_iso meio_dia_1_janeiro_2024 pedido_cafe None)
  = loja_uma_vencida.
Proof. vm_compute. reflexivity. Qed.

Example loja_uma_expirada_varrida :
  snd (atualizarStatusPromocoes runtime_iso "2024-02-01" loja_uma_vencida)
  = loja_uma_expirada.
Proof. vm_compute. reflexivity. Qed.

(** An end date of today is not in the future at noon. *)
Example criar_com_fim_hoje :
  status_inicial runtime_iso meio_dia_15_junho_2024
    (mkCriarPromocaoData "p2" "Cha" 5 "2024-06-01" "2024-06-15" "2024-06-15")
  = "expirada".
Proof. vm_compute. reflexivity. Qed.

(** Creating always writes one 'criada' entry with the data of the request. *)
Example criar_registra_criada :
  tab_historico
    (snd (criarPromocao runtime_iso meio_dia_15_junho_2024
            (mkCriarPromocaoData "p2" "Cha" 5 "2024-06-01" "2025-06-15" "2024-06-15") None))
  = [Historico.mk 1 (JNum 1) (JStr "Cha") (JNum 5) (JStr "2024-06-01")
       (JStr "2025-06-15") (JStr "criada") (JStr "2024-06-15")].
Proof. vm_compute. reflexivity. Qed.

(** The loop does register an expiration when it is handed the row. *)
Example registrar_uma_expirada :
  tab_historico
    (snd (registrarExpiradas runtime_iso "2024-02-01"
            [RowPromocao promocao_cafe; RowPromocao promocao_cafe] loja_uma_vencida))
  = [entrada_cafe_criada;
     Historico.mk 2 (JNum 1) JUndefined (JNum 10) JUndefined JUndefined
       (JStr "expirada") (JStr "2024-02-01")].
Proof. vm_compute. reflexivity. Qed.

(** The service reads the promotion back after the UPDATE has run: the row
    it reads already carries the new discount. *)
Example atualizar_le_depois_de_gravar :
  fst (buscarPromocaoPorId runtime_iso 1
         (snd (atualizarPromocao runtime_iso "2024-01-15" 1
                 [("desconto", JNum 20)] loja_uma_vencida)))
  = Some (RowPromocao (Promocao.set_desconto (JNum 20) promocao_cafe)).
Proof. vm_compute. reflexivity. Qed.

(** The aggregate counts after the promotion of the running example was
    deleted: no row is left, and the history holds one 'excluída' entry. *)
Example estatisticas_apos_excluir :
  fst (obterEstatisticasPromocoes runtime_iso
         (snd (excluirPromocao runtime_iso "2024-02-03" 1 loja_uma_expirada)))
  = mkEstatisticas (JNum 0) (JNum 0) (JNum 0) (JNum 1).
Proof. vm_compute. reflexivity. Qed.

(* ------------------------------------------------------------------ *)
(** ** Creation: the ledger entry, the round trip, and identifier reuse *)

Lemma newId_of_ausente (ids : list Z) :
  Forall inteiro_seguro ids -> ~ In (newId_of ids) ids.
Proof.
  intros S H. destruct (newId_of_novo ids S) as [_ [_ F]].
  destruct (F _ H) as [_ N]. now apply N.
Qed.

Lemma primeira_com_id_snoc (id : Z) (l : list Promocao.t) (p : Promocao.t) :
  ~ In id (map Promocao.id l) -> Promocao.id p = id ->
  primeira_com_id id (l ++ [p]) = Some p.
Proof.
  intros N E. unfold primeira_com_id. rewrite filter_app.
  assert (F : filter (fun q => Promocao.id q =? id) l = []).
  { pose proof (primeira_com_id_none id l N) as H. unfold primeira_com_id in H.
    now destruct (filter _ l). }
  rewrite F. simpl. rewrite E, Z.eqb_refl. reflexivity.
Qed.

Lemma filter_outros_snoc (id : Z) (l : list Promocao.t) (p : Promocao.t) :
  ~ In id (map Promocao.id l) -> Promocao.id p = id ->
  filter (fun q => negb (Promocao.id q =? id)) (l ++ [p]) = l.
Proof.
  intros N E. rewrite filter_app, (filter_outros_ausente id l N). simpl.
  rewrite E, Z.eqb_refl. simpl. apply app_nil_r.
Qed.

(** X1: creating a promotion appends one promotion row, under the
    identifier the call answers, and exactly one history entry: action
    'criada', that identifier, the action date, name, discount and dates of
    the request.  When the identifiers of a table are all safe integers, the
    identifier of the row added to it is one the table did not hold. *)
Theorem criarPromocao_registra_criada
    (rt : Runtime) (agora : Z) (data : CriarPromocaoData) (s : Storage) :
  let id := fst (criarPromocao rt agora data s) in
  let s' := snd (criarPromocao rt agora data s) in
  (exists p,
      tab_promocoes s' = tab_promocoes s ++ [p]
      /\ Promocao.id p = id
      /\ (Forall inteiro_seguro (map Promocao.id (tab_promocoes s)) ->
          ~ In id (map Promocao.id (tab_promocoes s))))
  /\ exists e,
      tab_historico s' = tab_historico s ++ [e]
      /\ (Forall inteiro_seguro (map Historico.id (tab_historico s)) ->
          ~ In (Historico.id e) (map Historico.id (tab_historico s)))
      /\ Historico.promocao_id e = JNum id
      /\ Historico.produto_nome e = JStr (produtoNome data)
      /\ Historico.desconto e = JNum (desconto data)
      /\ Historico.data_inicio e = JStr (dataInicio data)
      /\ Historico.data_fim e = JStr (dataFim data)
      /\ Historico.acao e = JStr "criada"
      /\ Historico.data_acao e = JStr (dataCriacao data).
Proof.
  intros id s'. subst id s'. rewrite criarPromocao_eq.
  cbn [fst snd tab_promocoes tab_historico promocoes historico_promocoes].
  split.
  - eexists. split; [reflexivity|]. split; [reflexivity|apply newId_of_ausente].
  - eexists. split; [reflexivity|]. cbn [Historico.id].
    split; [apply newId_of_ausente|]. repeat split.
Qed.

(** X1 on the store with promotion 1: the identifiers answered are new. *)
Lemma criarPromocao_registra_criada_witness :
  ~ In (fst (criarPromocao runtime_iso meio_dia_15_junho_2024 pedido_cafe loja_uma_vencida))
       (map Promocao.id (tab_promocoes loja_uma_vencida)).
Proof.
  destruct (criarPromocao_registra_criada runtime_iso meio_dia_15_junho_2024 pedido_cafe
              loja_uma_vencida) as [[p [_ [_ H]]] _].
  apply H. repeat constructor.
Defined.

(** X2: on a table whose identifiers are all safe integers, the identifier
    [criarPromocao] answers reads the created promotion back:
    [buscarPromocaoPorId] answers the row that holds the fields of the
    request, with no expiration date. *)
Theorem criarPromocao_depois_buscar
    (rt : Runtime) (agora : Z) (data : CriarPromocaoData) (s : Storage) :
  Forall inteiro_seguro (map Promocao.id (tab_promocoes s)) ->
  let id := fst (criarPromocao rt agora data s) in
  let s' := snd (criarPromocao rt agora data s) in
  exists status,
    fst (buscarPromocaoPorId rt id s')
    = Some (RowPromocao
              (Promocao.mk id (JStr (produtoId data)) (JStr (produtoNome data))
                 (JNum (desconto data)) (JStr (dataInicio data)) (JStr (dataFim data))
                 (JStr (dataCriacao data)) (JStr status) JNull))
    /\ (status = "ativa" \/ status = "expirada").
Proof.
  intros S id s'. subst id s'. rewrite criarPromocao_eq. cbn [fst snd].
  exists (status_inicial rt agora data). split.
  - rewrite buscarPromocaoPorId_primeira. cbn [fst tab_promocoes promocoes].
    rewrite primeira_com_id_snoc;
      [reflexivity|now apply newId_of_ausente|reflexivity].
  - unfold status_inicial. destruct (num_gt _ _); [now left|now right].
Qed.

(** X2 on the store with promotion 1. *)
Lemma criarPromocao_depois_buscar_witness :
  exists status,
    fst (buscarPromocaoPorId runtime_iso
           (fst (criarPromocao runtime_iso meio_dia_15_junho_2024 pedido_cafe
                   loja_uma_vencida))
           (snd (criarPromocao runtime_iso meio_dia_15_junho_2024 pedido_cafe
                   loja_uma_vencida)))
    = Some (RowPromocao
              (Promocao.mk
                 (fst (criarPromocao runtime_iso meio_dia_15_junho_2024 pedido_cafe
                         loja_uma_vencida))
                 (JStr (produtoId pedido_cafe)) (JStr (produtoNome pedido_cafe))
                 (JNum (desconto pedido_cafe)) (JStr (dataInicio pedido_cafe))
                 (JStr (dataFim pedido_cafe)) (JStr (dataCriacao pedido_cafe))
                 (JStr status) JNull))
    /\ (status = "ativa" \/ status = "expirada").
Proof.
  apply (criarPromocao_depois_buscar runtime_iso meio_dia_15_junho_2024 pedido_cafe
           loja_uma_vencida).
  repeat constructor.
Defined.

(** The same read on a table that holds the identifier 2^53: the creation
    answers 2^53 again and the read answers the older row. *)
Example buscar_depois_de_criar_em_2_53 :
  fst (criarPromocao runtime_iso meio_dia_15_junho_2024
         (mkCriarPromocaoData "p2" "Cha" 5 "2024-06-01" "2025-06-15" "2024-06-15")
         loja_id_2_53) = two53
  /\ fst (buscarPromocaoPorId runtime_iso two53
            (snd (criarPromocao runtime_iso meio_dia_15_junho_2024
                    (mkCriarPromocaoData "p2" "Cha" 5 "2024-06-01" "2025-06-15" "2024-06-15")
                    loja_id_2_53)))
     = option_map RowPromocao (head (tab_promocoes loja_id_2_53)).
Proof. split; vm_compute; reflexivity. Qed.

(** X3: identifiers are reused.  On a table whose identifiers are all safe
    integers, when a promotion is created, deleted, and another one is
    created, the table before the second creation is the original one and
    the second creation answers the identifier of the first: the generated
    identifier only looks at the rows present. *)
Theorem identificador_reutilizado
    (rt : Runtime) (agora1 agora2 : Z) (hoje : string)
    (data1 data2 : CriarPromocaoData) (s : Storage) :
  Forall inteiro_seguro (map Promocao.id (tab_promocoes s)) ->
  let id1 := fst (criarPromocao rt agora1 data1 s) in
  let s1 := snd (criarPromocao rt agora1 data1 s) in
  let s2 := snd (excluirPromocao rt hoje id1 s1) in
  tab_promocoes s2 = tab_promocoes s
  /\ fst (criarPromocao rt agora2 data2 s2) = id1.
Proof.
  intros S id1 s1 s2. subst id1 s1 s2.
  assert (T : tab_promocoes
                (snd (excluirPromocao rt hoje (fst (criarPromocao rt agora1 data1 s))
                        (snd (criarPromocao rt agora1 data1 s))))
              = tab_promocoes s).
  { rewrite excluirPromocao_eq. rewrite criarPromocao_eq.
    cbn [fst snd tab_promocoes promocoes].
    apply filter_outros_snoc; [now apply newId_of_ausente|reflexivity]. }
  split; [exact T|].
  rewrite (criarPromocao_eq rt agora2 data2). cbn [fst]. rewrite T.
  rewrite criarPromocao_eq. reflexivity.
Qed.

(** X3 on the store with promotion 1. *)
Lemma identificador_reutilizado_witness :
  fst (criarPromocao runtime_iso meio_dia_15_junho_2024 pedido_cafe
         (snd (excluirPromocao runtime_iso "2024-06-15"
                 (fst (criarPromocao runtime_iso meio_dia_15_junho_2024 pedido_cafe
                         loja_uma_vencida))
                 (snd (criarPromocao runtime_iso meio_dia_15_junho_2024 pedido_cafe
                         loja_uma_vencida)))))
  = fst (criarPromocao runtime_iso meio_dia_15_junho_2024 pedido_cafe loja_uma_vencida).
Proof.
  apply (proj2 (identificador_reutilizado runtime_iso meio_dia_15_junho_2024
                  meio_dia_15_junho_2024 "2024-06-15" pedido_cafe pedido_cafe
                  loja_uma_vencida ltac:(repeat constructor))).
Defined.

(* ------------------------------------------------------------------ *)
(** ** Reads *)

(** X4: on the web adapter [buscarPromocoesPorStatus] does not filter: for
    every status it answers what [buscarTodasPromocoes] answers.  Its
    statement contains no pattern before 'ORDER BY data_criacao DESC'. *)
Theorem buscarPromocoesPorStatus_nao_filtra (rt : Runtime) (status : string) (s : Storage) :
  buscarPromocoesPorStatus rt status s = buscarTodasPromocoes rt s.
Proof.
  unfold buscarPromocoesPorStatus, buscarTodasPromocoes.
  open_get. destruct s as [d|]; [|reflexivity].
  decide_patterns. reflexivity.
Qed.

Ltac same_pattern H :=
  first [ reflexivity
        | exfalso; vm_compute in H; discriminate H ].

(** X5: [getAllAsync] reads of a statement nothing but the first of its
    substrings the statement contains: two statements with the same first
    substring (or with none) get the same answer. *)
Theorem getAllAsync_so_o_primeiro_padrao
    (rt : Runtime) (q1 q2 : string) (params : list jsval) (s : Storage) :
  padrao_de q1 = padrao_de q2 ->
  getAllAsync rt q1 params s = getAllAsync rt q2 params s.
Proof.
  unfold padrao_de, padroes_getAll. cbn [find]. intros H.
  unfold getAllAsync, bind, getItem, ret. destruct s as [d|]; [|reflexivity].
  repeat match type of H with
    | context [includes q1 ?p] => destruct (includes q1 p)
    end;
  repeat match type of H with
    | context [includes q2 ?p] => destruct (includes q2 p)
    end;
  same_pattern H.
Qed.

(** X5 on the statement that counts the active promotions and the one that
    counts all of them. *)
Lemma getAllAsync_so_o_primeiro_padrao_witness :
  getAllAsync runtime_iso sql_count_ativas [] loja_uma_expirada
  = getAllAsync runtime_iso sql_count_total [] loja_uma_expirada.
Proof.
  apply (getAllAsync_so_o_primeiro_padrao runtime_iso sql_count_ativas sql_count_total
           [] loja_uma_expirada).
  vm_compute. reflexivity.
Defined.

(* ------------------------------------------------------------------ *)
(** ** Update: what reaches the table *)

Lemma last_param_snoc (l : list jsval) (v : jsval) : last_param (l ++ [v]) = v.
Proof. unfold last_param. apply last_last. Qed.

Lemma update_first_same {A : Type} (f : A -> bool) (g : A -> A) (l : list A) :
  (forall x, g x = x) -> update_first f g l = l.
Proof.
  intros Hg. induction l as [|x r IH]; simpl; [reflexivity|].
  destruct (f x); [now rewrite Hg|now rewrite IH].
Qed.

Lemma update_first_ext {A : Type} (f f' : A -> bool) (g : A -> A) (l : list A) :
  (forall x, f x = f' x) -> update_first f g l = update_first f' g l.
Proof.
  intros Hf. induction l as [|x r IH]; simpl; [reflexivity|].
  rewrite Hf. destruct (f' x); [reflexivity|now rewrite IH].
Qed.

Lemma nth_error_update_first_other {A : Type} (f : A -> bool) (g : A -> A)
    (l : list A) (n : nat) (x : A) :
  nth_error l n = Some x -> f x = false -> nth_error (update_first f g l) n = Some x.
Proof.
  revert n. induction l as [|y r IH]; intros n H F; [now destruct n|].
  destruct n as [|n]; simpl in *.
  - inversion H. subst y. now rewrite F.
  - destruct (f y); simpl; [exact H|now apply IH].
Qed.

Lemma primeira_com_id_update_first (id : Z) (g : Promocao.t -> Promocao.t)
    (l : list Promocao.t) :
  (forall p, Promocao.id (g p) = Promocao.id p) ->
  primeira_com_id id (update_first (fun p => Promocao.id p =? id) g l)
  = option_map g (primeira_com_id id l).
Proof.
  intros Hg. unfold primeira_com_id.
  induction l as [|x r IH]; simpl; [reflexivity|].
  destruct (Promocao.id x =? id) eqn:E; simpl.
  - now rewrite Hg, E.
  - rewrite E. exact IH.
Qed.

(** The table after UPDATE ... WHERE id = ?, in the service's call: the
    row looked for is the first with the identifier of the call. *)
Lemma update_por_id_servico (query : string) (valores : list jsval) (id : Z)
    (l : list Promocao.t) :
  update_por_id query (valores ++ [JNum id]) l
  = update_first (fun p => Promocao.id p =? id)
      (if includes query "SET status = 'expirada'"
       then expirar (param (valores ++ [JNum id]) 0)
       else update_fields query (valores ++ [JNum id])) l.
Proof.
  unfold update_por_id. rewrite last_param_snoc.
  destruct (includes query "SET status = 'expirada'");
    apply update_first_ext; intros x; reflexivity.
Qed.

(** X6: an update of a single field that is neither the discount, the end
    date nor the status changes nothing on the web adapter: the UPDATE is
    run and answers, but the table and the history are as before. *)
Theorem atualizarPromocao_campo_sem_efeito
    (rt : Runtime) (hoje : string) (id : Z) (campo : string) (v : jsval) (s : Storage) :
  In campo campos_sem_efeito ->
  let s' := snd (atualizarPromocao rt hoje id [(campo, v)] s) in
  tab_promocoes s' = tab_promocoes s /\ tab_historico s' = tab_historico s.
Proof.
  intros H s'. subst s'. rewrite atualizarPromocao_eq by discriminate.
  cbn [snd tab_promocoes tab_historico promocoes historico_promocoes map fst].
  unfold campos_sem_efeito in H. cbn [In] in H.
  repeat (destruct H as [H|H]; [subst campo|]); try contradiction;
    (split; [|reflexivity]);
    rewrite update_por_id_servico; decide_patterns;
    apply update_first_same; intros p; unfold update_fields; decide_patterns;
    reflexivity.
Qed.

(** X6 on the name of promotion 1. *)
Lemma atualizarPromocao_campo_sem_efeito_witness :
  tab_promocoes
    (snd (atualizarPromocao runtime_iso "2024-01-15" 1
            [("produtoNome", JStr "Cafe torrado")] loja_uma_vencida))
  = tab_promocoes loja_uma_vencida
  /\ tab_historico
       (snd (atualizarPromocao runtime_iso "2024-01-15" 1
               [("produtoNome", JStr "Cafe torrado")] loja_uma_vencida))
     = tab_historico loja_uma_vencida.
Proof.
  apply (atualizarPromocao_campo_sem_efeito runtime_iso "2024-01-15" 1 "produtoNome"
           (JStr "Cafe torrado") loja_uma_vencida).
  vm_compute. tauto.
Defined.

(** X7: an update of the discount alone, of the end date alone or of the
    status alone writes that value into that field of the first row with the
    identifier, and changes no other field and no other row. *)
Theorem atualizarPromocao_um_campo
    (rt : Runtime) (hoje : string) (id : Z) (v : jsval) (s : Storage) :
  tab_promocoes (snd (atualizarPromocao rt hoje id [("desconto", v)] s))
  = update_first (fun p => Promocao.id p =? id) (Promocao.set_desconto v) (tab_promocoes s)
  /\ tab_promocoes (snd (atualizarPromocao rt hoje id [("dataFim", v)] s))
     = update_first (fun p => Promocao.id p =? id) (Promocao.set_data_fim v) (tab_promocoes s)
  /\ tab_promocoes (snd (atualizarPromocao rt hoje id [("status", v)] s))
     = update_first (fun p => Promocao.id p =? id) (Promocao.set_status v) (tab_promocoes s).
Proof.
  repeat split; rewrite atualizarPromocao_eq by discriminate;
    cbn [snd tab_promocoes promocoes map fst snd];
    rewrite update_por_id_servico; decide_patterns;
    unfold update_fields; decide_patterns; reflexivity.
Qed.

Lemma update_fields_desconto (query : string) (params : list jsval) (p : Promocao.t) :
  includes query "desconto = ?" = true ->
  Promocao.desconto (update_fields query params p) = param params 0.
Proof.
  intros H. unfold update_fields. rewrite H.
  destruct (includes query "data_fim = ?"), (includes query "status = ?"); reflexivity.
Qed.

(** X8: when an update carries another field first and the discount second,
    the row receives as discount the value meant for the other field, while
    the history entry records the discount of the request: the adapter
    consumes the parameters in its own order, not in the order of the
    statement. *)
Theorem atualizarPromocao_desconto_trocado
    (rt : Runtime) (hoje : string) (id : Z) (campo : string) (a b : jsval)
    (s : Storage) (p : Promocao.t) :
  In campo campos_alem_do_desconto ->
  b <> JUndefined ->
  primeira_com_id id (tab_promocoes s) = Some p ->
  let s' := snd (atualizarPromocao rt hoje id [(campo, a); ("desconto", b)] s) in
  (exists p',
      primeira_com_id id (tab_promocoes s') = Some p'
      /\ Promocao.desconto p' = a)
  /\ (exists e,
      tab_historico s' = tab_historico s ++ [e]
      /\ Historico.acao e = JStr "atualizada"
      /\ Historico.desconto e = b).
Proof.
  intros H Hb Hp s'. subst s'. rewrite atualizarPromocao_eq by discriminate.
  cbn [snd tab_promocoes tab_historico promocoes historico_promocoes map fst snd].
  assert (D : defined (get_field [(campo, a); ("desconto", b)] "desconto") = true).
  { unfold campos_alem_do_desconto in H. cbn [In] in H.
    repeat (destruct H as [H|H]; [subst campo|]); try contradiction;
      now destruct b. }
  assert (G : get_field [(campo, a); ("desconto", b)] "desconto" = b).
  { unfold campos_alem_do_desconto in H. cbn [In] in H.
    repeat (destruct H as [H|H]; [subst campo|]); try contradiction; reflexivity. }
  rewrite D.
  assert (P : exists p',
             primeira_com_id id
               (update_por_id (sql_update [campo; "desconto"]) ([a; b] ++ [JNum id])
                  (tab_promocoes s)) = Some p'
             /\ Promocao.desconto p' = a).
  { rewrite update_por_id_servico.
    unfold campos_alem_do_desconto in H. cbn [In] in H.
    repeat (destruct H as [H|H]; [subst campo|]); try contradiction;
      decide_patterns;
      (rewrite primeira_com_id_update_first by (intros q; apply update_fields_id));
      rewrite Hp; cbn [option_map]; eexists; (split; [reflexivity|]);
      (rewrite update_fields_desconto by (vm_compute; reflexivity)); reflexivity. }
  destruct P as [p' [P1 P2]]. split; [now exists p'|].
  rewrite P1. eexists. split; [reflexivity|]. split; [reflexivity|].
  cbn [entrada_atualizada novoHistorico_of Historico.desconto param nth]. exact G.
Qed.

(** X8 on promotion 1: the end date comes first, the discount second. *)
Lemma atualizarPromocao_desconto_trocado_witness :
  (exists p',
      primeira_com_id 1
        (tab_promocoes
           (snd (atualizarPromocao runtime_iso "2024-01-15" 1
                   [("dataFim", JStr "2024-03-01"); ("desconto", JNum 20)]
                   loja_uma_vencida))) = Some p'
      /\ Promocao.desconto p' = JStr "2024-03-01")
  /\ (exists e,
      tab_historico
        (snd (atualizarPromocao runtime_iso "2024-01-15" 1
                [("dataFim", JStr "2024-03-01"); ("desconto", JNum 20)]
                loja_uma_vencida))
      = tab_historico loja_uma_vencida ++ [e]
      /\ Historico.acao e = JStr "atualizada"
      /\ Historico.desconto e = JNum 20).
Proof.
  apply (atualizarPromocao_desconto_trocado runtime_iso "2024-01-15" 1 "dataFim"
           (JStr "2024-03-01") (JNum 20) loja_uma_vencida promocao_cafe).
  - vm_compute. tauto.
  - discriminate.
  - reflexivity.
Defined.

(** X9: whatever the field set, an update keeps the identifiers of the table
    in their order (so no row is added or removed), leaves every row with
    another identifier as it is, and when no row has the identifier it
    leaves both tables as they are. *)
Theorem atualizarPromocao_preserva
    (rt : Runtime) (hoje : string) (id : Z) (updates : Updates) (s : Storage) :
  let s' := snd (atualizarPromocao rt hoje id updates s) in
  map Promocao.id (tab_promocoes s') = map Promocao.id (tab_promocoes s)
  /\ (forall n p,
        nth_error (tab_promocoes s) n = Some p -> Promocao.id p <> id ->
        nth_error (tab_promocoes s') n = Some p)
  /\ (~ In id (map Promocao.id (tab_promocoes s)) ->
        tab_promocoes s' = tab_promocoes s /\ tab_historico s' = tab_historico s).
Proof.
  intros s'. subst s'. destruct updates as [|u us].
  - cbn [atualizarPromocao map len length Z.of_nat Z.eqb snd ret].
    split; [reflexivity|]. split; [intros n p H _; exact H|now split].
  - rewrite atualizarPromocao_eq by discriminate.
    cbn [snd tab_promocoes tab_historico promocoes historico_promocoes].
    split; [apply map_id_update_por_id|]. split.
    + intros n p H N. rewrite update_por_id_servico.
      apply nth_error_update_first_other; [exact H|]. now apply Z.eqb_neq.
    + intros N.
      assert (T : update_por_id (sql_update (map fst (u :: us)))
                    (map snd (u :: us) ++ [JNum id]) (tab_promocoes s)
                  = tab_promocoes s).
      { rewrite update_por_id_servico. apply update_first_none.
        pose proof (primeira_com_id_none id _ N) as F. unfold primeira_com_id in F.
        destruct (find _ (tab_promocoes s)) as [q|] eqn:E; [exfalso|reflexivity].
        apply find_some in E as [I Q].
        assert (I' : In q (filter (fun p => Promocao.id p =? id) (tab_promocoes s)))
          by (apply filter_In; now split).
        destruct (filter _ (tab_promocoes s)); [contradiction|discriminate]. }
      rewrite T. split; [reflexivity|].
      rewrite (primeira_com_id_none id _ N). now destruct (defined _).
Qed.

(* ------------------------------------------------------------------ *)
(** ** The sweep on the table *)

Lemma vencida_expirar (rt : Runtime) (hoje v : jsval) (p : Promocao.t) :
  vencida rt hoje (expirar v p) = false.
Proof. unfold vencida, expirar. simpl. apply andb_false_r. Qed.

Lemma vencida_apos_marcar (rt : Runtime) (hoje : jsval) (p : Promocao.t) :
  vencida rt hoje (if vencida rt hoje p then expirar hoje p else p) = false.
Proof.
  destruct (vencida rt hoje p) eqn:E; [apply vencida_expirar|exact E].
Qed.

Lemma map_id_marcar (rt : Runtime) (hoje : jsval) (l : list Promocao.t) :
  map Promocao.id (map (fun p => if vencida rt hoje p then expirar hoje p else p) l)
  = map Promocao.id l.
Proof.
  rewrite map_map. apply map_ext. intros p. now destruct (vencida rt hoje p).
Qed.

(** X10: after a sweep no promotion is left active with an end date before
    the date of the sweep, so a second sweep on that date changes no row;
    the sweep keeps the identifiers in their order and leaves alone every
    row whose status is not 'ativa'. *)
Theorem sweep_idempotente (rt : Runtime) (hoje : string) (s : Storage) :
  let s1 := snd (atualizarStatusPromocoes rt hoje s) in
  conta (vencida rt (JStr hoje)) (tab_promocoes s1) = 0
  /\ tab_promocoes (snd (atualizarStatusPromocoes rt hoje s1)) = tab_promocoes s1
  /\ map Promocao.id (tab_promocoes s1) = map Promocao.id (tab_promocoes s)
  /\ (forall n p,
        nth_error (tab_promocoes s) n = Some p -> is_ativa p = false ->
        nth_error (tab_promocoes s1) n = Some p).
Proof.
  intros s1. subst s1. rewrite !atualizarStatusPromocoes_eq.
  cbn [snd tab_promocoes promocoes].
  set (f := fun p => if vencida rt (JStr hoje) p then expirar (JStr hoje) p else p).
  assert (V : forall p, vencida rt (JStr hoje) (f p) = false)
    by (intros p; apply vencida_apos_marcar).
  split; [|split; [|split]].
  - apply conta_filter_nil. induction (tab_promocoes s) as [|x r IH]; [reflexivity|].
    simpl. now rewrite V.
  - rewrite map_map. apply map_ext. intros p. fold (f p). fold (f (f p)).
    unfold f at 1. now rewrite V.
  - apply map_id_marcar.
  - intros n p H A. rewrite nth_error_map, H. cbn [option_map]. unfold f, vencida.
    unfold is_ativa in A. rewrite A, andb_false_r. reflexivity.
Qed.

(* ------------------------------------------------------------------ *)
(** ** What the later entries of the ledger hold *)

(** X11: on the web adapter the 'excluída' entry of a deleted promotion
    holds its identifier, its discount and the date of the call, and
    [undefined] for the name and both dates: the row read back has the keys
    [produto_nome], [data_inicio], [data_fim], and the service reads
    [produtoNome], [dataInicio], [dataFim]. *)
Theorem excluirPromocao_entrada
    (rt : Runtime) (hoje : string) (id : Z) (s : Storage) (p : Promocao.t) :
  primeira_com_id id (tab_promocoes s) = Some p ->
  exists n,
    tab_historico (snd (excluirPromocao rt hoje id s))
    = tab_historico s
      ++ [Historico.mk n (JNum id) JUndefined (Promocao.desconto p) JUndefined JUndefined
            (JStr "excluída") (JStr hoje)].
Proof.
  intros H. rewrite excluirPromocao_eq, H.
  cbn [snd tab_historico historico_promocoes].
  eexists. reflexivity.
Qed.

(** X11 on promotion 1. *)
Lemma excluirPromocao_entrada_witness :
  exists n,
    tab_historico (snd (excluirPromocao runtime_iso "2024-02-03" 1 loja_uma_vencida))
    = tab_historico loja_uma_vencida
      ++ [Historico.mk n (JNum 1) JUndefined (Promocao.desconto promocao_cafe)
            JUndefined JUndefined (JStr "excluída") (JStr "2024-02-03")].
Proof.
  apply (excluirPromocao_entrada runtime_iso "2024-02-03" 1 loja_uma_vencida promocao_cafe).
  reflexivity.
Defined.

(** X12: on the web adapter the 'atualizada' entry holds [undefined] for the
    name and both dates, whatever the promotion and the field set: it holds
    the identifier, the discount of the request and the date of the call
    only. *)
Theorem atualizarPromocao_entrada_sem_nome
    (rt : Runtime) (hoje : string) (id : Z) (updates : Updates) (s : Storage) :
  In id (map Promocao.id (tab_promocoes s)) ->
  defined (get_field updates "desconto") = true ->
  exists n,
    tab_historico (snd (atualizarPromocao rt hoje id updates s))
    = tab_historico s
      ++ [Historico.mk n (JNum id) JUndefined (get_field updates "desconto")
            JUndefined JUndefined (JStr "atualizada") (JStr hoje)].
Proof.
  intros Hin Hd. destruct updates as [|u us]; [discriminate|].
  rewrite atualizarPromocao_eq by discriminate. rewrite Hd.
  destruct (primeira_apos_update id (sql_update (map fst (u :: us)))
              (map snd (u :: us) ++ [JNum id]) _ Hin) as [p Hp].
  rewrite Hp. cbn [snd tab_historico historico_promocoes].
  eexists. reflexivity.
Qed.

(** X12 on promotion 1 and an update of its discount. *)
Lemma atualizarPromocao_entrada_sem_nome_witness :
  exists n,
    tab_historico
      (snd (atualizarPromocao runtime_iso "2024-01-15" 1 [("desconto", JNum 20)]
              loja_uma_vencida))
    = tab_historico loja_uma_vencida
      ++ [Historico.mk n (JNum 1) JUndefined (JNum 20) JUndefined JUndefined
            (JStr "atualizada") (JStr "2024-01-15")].
Proof.
  exact (atualizarPromocao_entrada_sem_nome runtime_iso "2024-01-15" 1
           [("desconto", JNum 20)] loja_uma_vencida (or_introl eq_refl) eq_refl).
Defined.

(* ------------------------------------------------------------------ *)
(** ** Invariants over any sequence of calls *)

Lemma NoDup_snoc {A : Type} (l : list A) (x : A) :
  NoDup l -> ~ In x l -> NoDup (l ++ [x]).
Proof.
  intros N I. induction l as [|y r IH]; simpl.
  - constructor; [intros []|constructor].
  - inversion N as [|? ? Hy Hr]. subst. constructor.
    + intros H. apply in_app_or in H as [H|[H|[]]]; [now apply Hy|].
      subst y. apply I. now left.
    + apply IH; [exact Hr|]. intros H. apply I. now right.
Qed.

Lemma NoDup_map_filter {A B : Type} (f : A -> B) (g : A -> bool) (l : list A) :
  NoDup (map f l) -> NoDup (map f (filter g l)).
Proof.
  induction l as [|x r IH]; simpl; intros N; [constructor|].
  inversion N as [|? ? Hx Hr]. subst. destruct (g x); simpl.
  - constructor; [|now apply IH]. intros H. apply Hx.
    apply in_map_iff in H as [y [E I]]. apply filter_In in I as [I _].
    apply in_map_iff. now exists y.
  - now apply IH.
Qed.

Lemma leitura_nao_escreve (rt : Runtime) (op : operacao) (s : Storage) :
  match op with
  | InicializarBanco | BuscarTodasPromocoes | BuscarHistoricoCompleto
  | ObterEstatisticasPromocoes | BuscarPromocoesPorStatus _ | BuscarPromocaoPorId _ => True
  | _ => False
  end ->
  executar rt op s = s.
Proof.
  destruct op; cbn [executar]; intros H; try contradiction.
  - reflexivity.
  - apply getAllAsync_le.
  - apply getAllAsync_le.
  - now rewrite obterEstatisticasPromocoes_eq.
  - apply getAllAsync_le.
  - now rewrite buscarPromocaoPorId_eq.
Qed.

Lemma newId_of_entre (b : Z) (ids : list Z) :
  1 <= b <= two53 ->
  Forall (fun i => - two53 < i < b) ids ->
  - two53 < newId_of ids < b + 1 /\ ~ In (newId_of ids) ids.
Proof.
  intros B F.
  assert (S : Forall inteiro_seguro ids).
  { eapply Forall_impl; [|exact F]. intros i H. unfold inteiro_seguro. cbv beta in H. lia. }
  split; [|now apply newId_of_ausente].
  rewrite (newId_of_seguro ids S). destruct ids as [|x r].
  - cbn. unfold two53 in *. lia.
  - replace (0 <? len (x :: r)) with true
      by (symmetry; apply Z.ltb_lt; unfold len; simpl length; lia).
    assert (I : In (Math_max (x :: r)) (x :: r)) by (apply Math_max_in; discriminate).
    apply (proj1 (Forall_forall _ _) F) in I. cbv beta in I. lia.
Qed.

Lemma Forall_snoc {A : Type} (P : A -> Prop) (l : list A) (x : A) :
  Forall P l -> P x -> Forall P (l ++ [x]).
Proof. intros F H. apply Forall_app. split; [exact F|now constructor]. Qed.

Lemma Forall_map_filter {A B : Type} (P : B -> Prop) (f : A -> B) (g : A -> bool)
    (l : list A) :
  Forall P (map f l) -> Forall P (map f (filter g l)).
Proof.
  induction l as [|x r IH]; simpl; intros F; [constructor|].
  inversion F as [|? ? Hx Hr]. subst. destruct (g x); simpl; [constructor|]; auto.
Qed.

Lemma entre_mais_um (b : Z) (l : list Z) :
  Forall (fun i => - two53 < i < b) l -> Forall (fun i => - two53 < i < b + 1) l.
Proof. apply Forall_impl. intros i H. lia. Qed.

(** One call: unique identifiers stay unique, and the bound on them grows by
    one at most. *)
Lemma executar_ids_unicos (rt : Runtime) (op : operacao) (b : Z) (s : Storage) :
  1 <= b <= two53 -> ids_entre b s -> ids_unicos s ->
  ids_unicos (executar rt op s) /\ ids_entre (b + 1) (executar rt op s).
Proof.
  intros B [EP EH] [NP NH].
  destruct (newId_of_entre b _ B EP) as [BP AP].
  destruct (newId_of_entre b _ B EH) as [BH AH].
  pose proof (entre_mais_um b _ EP) as EP'. pose proof (entre_mais_um b _ EH) as EH'.
  assert (Z0 : ids_unicos s /\ ids_entre (b + 1) s) by (repeat split; assumption).
  destruct op;
    try (rewrite leitura_nao_escreve by exact I; exact Z0);
    cbn [executar]; unfold ids_unicos, ids_entre.
  - rewrite criarPromocao_eq. cbn [snd tab_promocoes tab_historico promocoes historico_promocoes].
    rewrite !map_app. cbn [map Promocao.id Historico.id].
    repeat split; try (apply NoDup_snoc; assumption); apply Forall_snoc; assumption.
  - destruct updates as [|u us]; [exact Z0|].
    rewrite atualizarPromocao_eq by discriminate.
    cbn [snd tab_promocoes tab_historico promocoes historico_promocoes].
    rewrite map_id_update_por_id.
    destruct (defined _); [|repeat split; assumption].
    destruct (primeira_com_id _ _); [|repeat split; assumption].
    rewrite map_app. cbn [map Historico.id novoHistorico_of entrada_atualizada].
    repeat split; try assumption; [apply NoDup_snoc|apply Forall_snoc]; assumption.
  - rewrite excluirPromocao_eq.
    cbn [snd tab_promocoes tab_historico promocoes historico_promocoes].
    destruct (primeira_com_id _ _).
    + rewrite map_app. cbn [map Historico.id novoHistorico_of entrada_excluida].
      repeat split;
        [now apply NoDup_map_filter|now apply NoDup_snoc
        |now apply Forall_map_filter|now apply Forall_snoc].
    + repeat split;
        [now apply NoDup_map_filter|assumption|now apply Forall_map_filter|assumption].
  - rewrite atualizarStatusPromocoes_eq.
    cbn [snd tab_promocoes tab_historico promocoes historico_promocoes].
    rewrite map_id_marcar. repeat split; assumption.
Qed.

(** X13: identifiers stay unique while they stay below 2^53.  When no two
    promotions and no two history entries share an identifier, and every
    identifier lies above -2^53 and below a bound that leaves room, up to
    2^53, for one new identifier per call, the same uniqueness holds after
    the sequence of service calls. *)
Theorem ids_unicos_preservado
    (rt : Runtime) (ops : list operacao) (b : Z) (s : Storage) :
  1 <= b -> b + len ops <= two53 -> ids_entre b s ->
  ids_unicos s -> ids_unicos (executar_todas rt ops s).
Proof.
  revert b s. induction ops as [|op ops IH]; intros b s B1 B2 E U; [exact U|].
  assert (L : len (op :: ops) = len ops + 1)
    by (unfold len; simpl length; lia).
  assert (L0 : 0 <= len ops) by (unfold len; lia).
  destruct (executar_ids_unicos rt op b s) as [U' E']; try assumption; [lia|].
  unfold executar_todas. cbn [fold_left].
  apply (IH (b + 1)); try assumption; lia.
Qed.

(** X13 on the store of the running example: a creation, an update of the
    discount, a sweep and a deletion. *)
Lemma ids_unicos_preservado_witness :
  ids_unicos
    (executar_todas runtime_iso
       [CriarPromocao meio_dia_15_junho_2024 pedido_cafe;
        AtualizarPromocao "2024-06-15" 2 [("desconto", JNum 20)];
        AtualizarStatusPromocoes "2024-06-16";
        ExcluirPromocao "2024-06-17" 1]
       loja_uma_vencida).
Proof.
  apply (ids_unicos_preservado runtime_iso _ 2).
  - lia.
  - vm_compute. discriminate.
  - split; repeat constructor.
  - split; repeat constructor; simpl; tauto.
Defined.

(** From unique identifiers that include 2^53 a creation makes two rows
    share an identifier. *)
Example ids_repetidos_em_2_53 :
  ids_unicos loja_id_2_53
  /\ map Promocao.id
       (tab_promocoes
          (executar runtime_iso (CriarPromocao meio_dia_15_junho_2024 pedido_cafe)
             loja_id_2_53))
     = [two53; two53].
Proof.
  split; [split; repeat constructor; simpl; tauto|vm_compute; reflexivity].
Qed.

Lemma executar_acoes (rt : Runtime) (op : operacao) (s : Storage) :
  exists novos,
    tab_historico (executar rt op s) = tab_historico s ++ novos
    /\ Forall acao_gravada novos.
Proof.
  assert (Z0 : exists novos : list Historico.t,
             tab_historico s = tab_historico s ++ novos /\ Forall acao_gravada novos)
    by (exists []; split; [now rewrite app_nil_r|constructor]).
  destruct op; try (rewrite leitura_nao_escreve by exact I; exact Z0); cbn [executar].
  - rewrite criarPromocao_eq. eexists. split; [reflexivity|].
    constructor; [now left|constructor].
  - destruct updates as [|u us]; [exact Z0|].
    rewrite atualizarPromocao_eq by discriminate.
    cbn [snd tab_historico historico_promocoes].
    destruct (defined _); [|exact Z0]. destruct (primeira_com_id _ _); [|exact Z0].
    eexists. split; [reflexivity|]. constructor; [right; now left|constructor].
  - rewrite excluirPromocao_eq. cbn [snd tab_historico historico_promocoes].
    destruct (primeira_com_id _ _); [|exact Z0].
    eexists. split; [reflexivity|]. constructor; [right; now right|constructor].
  - rewrite atualizarStatusPromocoes_historico. exact Z0.
Qed.

Lemma conta_expirada_novos (pid : jsval) (l novos : list Historico.t) :
  Forall acao_gravada novos ->
  conta (expirada_de pid) (l ++ novos) = conta (expirada_de pid) l.
Proof.
  intros F. unfold conta, len. rewrite filter_app, length_app.
  assert (E : filter (expirada_de pid) novos = []).
  { induction F as [|e r He _ IH]; [reflexivity|]. simpl. rewrite IH.
    unfold expirada_de.
    destruct He as [A|[A|A]]; rewrite A; simpl; now rewrite andb_false_r. }
  rewrite E. simpl. lia.
Qed.

(** X14: on the web adapter the service only ever writes entries with
    action 'criada', 'atualizada' or 'excluída': after any sequence of calls
    the history is the one before followed by such entries, so the number of
    'expirada' entries of a promotion never changes. *)
Theorem servico_nunca_grava_expirada (rt : Runtime) (ops : list operacao) (s : Storage) :
  (exists novos,
      tab_historico (executar_todas rt ops s) = tab_historico s ++ novos
      /\ Forall acao_gravada novos)
  /\ forall pid,
      conta (expirada_de pid) (tab_historico (executar_todas rt ops s))
      = conta (expirada_de pid) (tab_historico s).
Proof.
  assert (A : exists novos,
             tab_historico (executar_todas rt ops s) = tab_historico s ++ novos
             /\ Forall acao_gravada novos).
  { revert s. induction ops as [|op ops IH]; intros s.
    - exists []. split; [now rewrite app_nil_r|constructor].
    - unfold executar_todas. cbn [fold_left].
      fold (executar_todas rt ops (executar rt op s)).
      destruct (IH (executar rt op s)) as [n2 [H2 F2]].
      destruct (executar_acoes rt op s) as [n1 [H1 F1]].
      exists (n1 ++ n2). split; [now rewrite H2, H1, app_assoc|].
      apply Forall_app. now split. }
  split; [exact A|]. intros pid. destruct A as [novos [H F]].
  rewrite H. now apply conta_expirada_novos.
Qed.

(* ------------------------------------------------------------------ *)
(** ** Initialisation *)

(** X15: [initDatabase] never loses data: the tables read the same before
    and after it, a storage that holds a document is left exactly as it is,
    an empty storage receives the document with two empty tables, and a
    second call changes nothing. *)
Theorem initDatabase_preserva (s : Storage) :
  let s' := snd (initDatabase s) in
  tab_promocoes s' = tab_promocoes s
  /\ tab_historico s' = tab_historico s
  /\ (s = None -> s' = Some (mkDatabase [] []))
  /\ (s <> None -> s' = s)
  /\ snd (initDatabase s') = s'.
Proof.
  destruct s as [d|]; cbn; repeat split; try reflexivity; try discriminate.
  intros H. now contradiction H.
Qed.

(* ------------------------------------------------------------------ *)
(** ** DELETE and UPDATE, whatever the rest of the statement *)

Lemma delete_nao_outros (query : string) :
  startsWith query pre_delete_promocoes = true ->
  startsWith query pre_insert_promocoes = false
  /\ startsWith query pre_insert_historico = false
  /\ startsWith query pre_update_promocoes = false.
Proof.
  intros H. apply prefix_split in H as [r Hr]. subst query. repeat split.
Qed.

Lemma update_nao_insert (query : string) :
  startsWith query pre_update_promocoes = true ->
  startsWith query pre_insert_promocoes = false
  /\ startsWith query pre_insert_historico = false.
Proof.
  intros H. apply prefix_split in H as [r Hr]. subst query. repeat split.
Qed.

Lemma len_filter_split {A : Type} (f : A -> bool) (l : list A) :
  len l - len (filter (fun x => negb (f x)) l) = len (filter f l).
Proof.
  unfold len. induction l as [|x r IH]; [reflexivity|].
  cbn [filter]. destruct (f x); cbn [negb length]; rewrite ?Nat2Z.inj_succ; lia.
Qed.

Lemma filter_negb_none {A : Type} (f : A -> bool) (l : list A) :
  filter f (filter (fun x => negb (f x)) l) = [].
Proof.
  induction l as [|x r IH]; simpl; [reflexivity|].
  destruct (f x) eqn:E; simpl; [exact IH|]. now rewrite E.
Qed.

(** X16: a statement that starts with 'DELETE FROM promocoes' removes the
    rows whose identifier is its first parameter and keeps the others in
    their order, whatever follows the prefix; the history is untouched;
    [changes] is the number of rows removed, so the same DELETE run again
    answers 0.  The adapter of [database.ts] answers [changes = 1] even when
    no row has that identifier. *)
Theorem delete_por_prefixo
    (rt : Runtime) (query : string) (params : list jsval) (s : Storage) :
  startsWith query pre_delete_promocoes = true ->
  let tem_id := fun p => js_seq (JNum (Promocao.id p)) (param params 0) in
  let r := runAsync rt query params s in
  tab_promocoes (snd r) = filter (fun p => negb (tem_id p)) (tab_promocoes s)
  /\ tab_historico (snd r) = tab_historico s
  /\ lastInsertRowId (fst r) = 0
  /\ changes (fst r) = conta tem_id (tab_promocoes s)
  /\ changes (fst (runAsync rt query params (snd r))) = 0
  /\ changes (fst (WebDatabaseImpl.runAsync query params s)) = 1.
Proof.
  intros H tem_id r. subst r.
  destruct (delete_nao_outros query H) as [N1 [N2 N3]].
  assert (E : forall s0,
             runAsync rt query params s0
             = (mkRunResult 0 (conta tem_id (tab_promocoes s0)),
                Some (mkDatabase (filter (fun p => negb (tem_id p)) (tab_promocoes s0))
                                 (tab_historico s0)))).
  { intros s0. unfold runAsync, bind, getItem, setItem, ret.
    rewrite N1, N2, N3, H. cbv zeta. rewrite !db_promocoes, !db_historico.
    fold tem_id. now rewrite len_filter_split. }
  rewrite !E. cbn [fst snd tab_promocoes tab_historico promocoes historico_promocoes
                   lastInsertRowId changes].
  repeat split.
  - unfold conta. now rewrite filter_negb_none.
  - unfold WebDatabaseImpl.runAsync, bind, getItem, setItem, ret.
    fold pre_insert_promocoes pre_insert_historico pre_update_promocoes
      pre_delete_promocoes.
    now rewrite N1, N2, N3, H.
Qed.

(** X16 on the DELETE of the service and an identifier no row has. *)
Lemma delete_por_prefixo_witness :
  changes (fst (runAsync runtime_iso sql_delete_promocao [JNum 7] loja_uma_vencida)) = 0
  /\ changes (fst (WebDatabaseImpl.runAsync sql_delete_promocao [JNum 7] loja_uma_vencida))
     = 1.
Proof.
  destruct (delete_por_prefixo runtime_iso sql_delete_promocao [JNum 7] loja_uma_vencida
              eq_refl) as [_ [_ [_ [H [_ H']]]]].
  split; [exact H|exact H'].
Defined.

Lemma WebDatabaseImpl_update_fields_id (params : list jsval) (p : Promocao.t) :
  Promocao.id (WebDatabaseImpl.update_fields params p) = Promocao.id p.
Proof.
  unfold WebDatabaseImpl.update_fields.
  destruct (defined (param params 0)), (defined (param params 1)),
    (defined (param params 2)); reflexivity.
Qed.

Lemma find_some_len {A : Type} (f : A -> bool) (l : list A) (x : A) :
  find f l = Some x -> 1 <= len l.
Proof. destruct l; [discriminate|]. intros _. unfold len. simpl length. lia. Qed.

Lemma conta_le_len {A : Type} (f : A -> bool) (l : list A) : conta f l <= len l.
Proof.
  unfold conta, len. pose proof (filter_length_le f l). lia.
Qed.

(** X17: a statement that starts with 'UPDATE promocoes' never adds or
    removes a row, never changes an identifier and never touches the
    history, whatever follows the prefix and whatever the parameters, through
    the adapter of [web.ts] and through the one of [database.ts]; it answers
    [lastInsertRowId = 0] and a [changes] between 0 and the number of
    rows. *)
Theorem update_por_prefixo
    (rt : Runtime) (query : string) (params : list jsval) (s : Storage) :
  startsWith query pre_update_promocoes = true ->
  let r := runAsync rt query params s in
  let r' := WebDatabaseImpl.runAsync query params s in
  (map Promocao.id (tab_promocoes (snd r)) = map Promocao.id (tab_promocoes s)
   /\ tab_historico (snd r) = tab_historico s
   /\ lastInsertRowId (fst r) = 0
   /\ 0 <= changes (fst r) <= len (tab_promocoes s))
  /\ (map Promocao.id (tab_promocoes (snd r')) = map Promocao.id (tab_promocoes s)
      /\ tab_historico (snd r') = tab_historico s
      /\ lastInsertRowId (fst r') = 0
      /\ 0 <= changes (fst r') <= len (tab_promocoes s)).
Proof.
  intros H r r'. subst r r'.
  destruct (update_nao_insert query H) as [N1 N2].
  pose proof (conta_nonneg (vencida rt (param params 0)) (tab_promocoes s)) as C0.
  pose proof (conta_le_len (vencida rt (param params 0)) (tab_promocoes s)) as C1.
  assert (L0 : 0 <= len (tab_promocoes s)) by (unfold len; lia).
  split.
  - unfold runAsync, bind, getItem, setItem, ret.
    rewrite N1, N2, H. cbv zeta. rewrite !db_promocoes, !db_historico.
    destruct (includes query pat_where_id).
    + destruct (find _ (tab_promocoes s)) as [q|] eqn:F.
      * apply find_some_len in F.
        destruct (includes query "SET status = 'expirada'");
          cbn [fst snd tab_promocoes tab_historico promocoes historico_promocoes
               lastInsertRowId changes];
          (rewrite map_id_update_first;
           [repeat split; lia | intros p; first [reflexivity | apply update_fields_id]]).
      * cbn [fst snd tab_promocoes tab_historico promocoes historico_promocoes
             lastInsertRowId changes]. repeat split; lia.
    + destruct (includes query pat_where_vencidas);
        cbn [fst snd tab_promocoes tab_historico promocoes historico_promocoes
             lastInsertRowId changes].
      * rewrite map_id_marcar. fold (conta (vencida rt (param params 0)) (tab_promocoes s)).
        repeat split; lia.
      * repeat split; lia.
  - unfold WebDatabaseImpl.runAsync, bind, getItem, setItem, ret.
    fold pre_insert_promocoes pre_insert_historico pre_update_promocoes.
    rewrite N1, N2, H. cbv zeta. rewrite !db_promocoes, !db_historico.
    destruct (includes query "WHERE id = ?").
    + destruct (find _ (tab_promocoes s)) as [q|] eqn:F.
      * apply find_some_len in F.
        destruct (includes query "SET status = 'expirada'");
          cbn [fst snd tab_promocoes tab_historico promocoes historico_promocoes
               lastInsertRowId changes];
          (rewrite map_id_update_first;
           [repeat split; lia
           | intros p; first [reflexivity | apply WebDatabaseImpl_update_fields_id]]).
      * cbn [fst snd tab_promocoes tab_historico promocoes historico_promocoes
             lastInsertRowId changes]. repeat split; lia.
    + cbn [fst snd tab_promocoes tab_historico promocoes historico_promocoes
           lastInsertRowId changes]. repeat split; lia.
Qed.

(** X17 on the bulk UPDATE of the sweep. *)
Lemma update_por_prefixo_witness :
  tab_historico (snd (runAsync runtime_iso sql_marcar_expiradas
                        [JStr "2024-02-01"; JStr "2024-02-01"] loja_uma_vencida))
  = tab_historico loja_uma_vencida
  /\ tab_historico (snd (WebDatabaseImpl.runAsync sql_marcar_expiradas
                           [JStr "2024-02-01"; JStr "2024-02-01"] loja_uma_vencida))
     = tab_historico loja_uma_vencida.
Proof.
  destruct (update_por_prefixo runtime_iso sql_marcar_expiradas
              [JStr "2024-02-01"; JStr "2024-02-01"] loja_uma_vencida eq_refl)
    as [[_ [H _]] [_ [H' _]]].
  split; [exact H|exact H'].
Defined.

(* ------------------------------------------------------------------ *)
(** ** The SELECT and the UPDATE on overdue promotions agree *)

Lemma getAll_vencidas (rt : Runtime) (query : string) (params : list jsval) (s : Storage) :
  padrao_de query = Some pat_where_vencidas ->
  getAllAsync rt query params s
  = (map RowPromocao (filter (vencida rt (param params 0)) (tab_promocoes s)), s).
Proof.
  unfold padrao_de, padroes_getAll. cbn [find]. intros H.
  unfold getAllAsync, bind, getItem, ret. destruct s as [d|]; [|reflexivity].
  repeat match type of H with
    | context [includes query ?p] => destruct (includes query p)
    end;
  same_pattern H.
Qed.

(** X18: a SELECT that [getAllAsync] answers through its pattern 'WHERE
    data_fim < ? AND status = 'ativa'' answers as many rows as the bulk
    UPDATE of the sweep, run on the same date, reports as [changes]; and
    once that UPDATE has run, the SELECT answers no row. *)
Theorem vencidas_select_e_update
    (rt : Runtime) (query : string) (hoje : jsval) (s : Storage) :
  padrao_de query = Some pat_where_vencidas ->
  let r := runAsync rt sql_marcar_expiradas [hoje; hoje] s in
  len (fst (getAllAsync rt query [hoje] s)) = changes (fst r)
  /\ fst (getAllAsync rt query [hoje] (snd r)) = [].
Proof.
  intros H r. subst r. rewrite run_marcar_expiradas, !(getAll_vencidas rt query _ _ H).
  cbn [fst snd changes param nth tab_promocoes promocoes]. split.
  - apply len_map.
  - set (f := fun p => if vencida rt hoje p then expirar hoje p else p).
    assert (E : filter (vencida rt hoje) (map f (tab_promocoes s)) = []).
    { induction (tab_promocoes s) as [|x l IH]; [reflexivity|].
      cbn [map filter]. unfold f at 1. now rewrite vencida_apos_marcar. }
    now rewrite E.
Qed.

(** X18 on a SELECT of the overdue promotions. *)
Lemma vencidas_select_e_update_witness :
  len (fst (getAllAsync runtime_iso
              "SELECT id FROM promocoes WHERE data_fim < ? AND status = 'ativa'"
              [JStr "2024-02-01"] loja_uma_vencida))
  = changes (fst (runAsync runtime_iso sql_marcar_expiradas
                    [JStr "2024-02-01"; JStr "2024-02-01"] loja_uma_vencida))
  /\ fst (getAllAsync runtime_iso
            "SELECT id FROM promocoes WHERE data_fim < ? AND status = 'ativa'"
            [JStr "2024-02-01"]
            (snd (runAsync runtime_iso sql_marcar_expiradas
                    [JStr "2024-02-01"; JStr "2024-02-01"] loja_uma_vencida))) = [].
Proof.
  apply (vencidas_select_e_update runtime_iso
           "SELECT id FROM promocoes WHERE data_fim < ? AND status = 'ativa'"
           (JStr "2024-02-01") loja_uma_vencida).
  vm_compute. reflexivity.
Defined.

(* ------------------------------------------------------------------ *)
(** ** The adapter of [database.ts] and the sweep *)

(** X19: through the adapter of [database.ts] an UPDATE whose text does not
    contain 'WHERE id = ?' changes no row and answers [changes = 0]; the
    bulk UPDATE of the sweep is such a statement, so a sweep through that
    adapter expires nothing. *)
Theorem WebDatabaseImpl_update_sem_id
    (query : string) (params : list jsval) (s : Storage) :
  startsWith query pre_update_promocoes = true ->
  includes query pat_where_id = false ->
  fst (WebDatabaseImpl.runAsync query params s) = mkRunResult 0 0
  /\ tab_promocoes (snd (WebDatabaseImpl.runAsync query params s)) = tab_promocoes s
  /\ tab_historico (snd (WebDatabaseImpl.runAsync query params s)) = tab_historico s.
Proof.
  intros H N. destruct (update_nao_insert query H) as [N1 N2].
  unfold WebDatabaseImpl.runAsync, bind, getItem, setItem, ret.
  fold pre_insert_promocoes pre_insert_historico pre_update_promocoes pat_where_id.
  rewrite N1, N2, H, N. cbv zeta. rewrite !db_promocoes, !db_historico.
  repeat split.
Qed.

(** X19 on the bulk UPDATE of the sweep and the store with an overdue
    active promotion. *)
Lemma WebDatabaseImpl_update_sem_id_witness :
  fst (WebDatabaseImpl.runAsync sql_marcar_expiradas
         [JStr "2024-02-01"; JStr "2024-02-01"] loja_uma_vencida) = mkRunResult 0 0
  /\ tab_promocoes (snd (WebDatabaseImpl.runAsync sql_marcar_expiradas
                           [JStr "2024-02-01"; JStr "2024-02-01"] loja_uma_vencida))
     = tab_promocoes loja_uma_vencida
  /\ tab_historico (snd (WebDatabaseImpl.runAsync sql_marcar_expiradas
                           [JStr "2024-02-01"; JStr "2024-02-01"] loja_uma_vencida))
     = tab_historico loja_uma_vencida.
Proof.
  apply (WebDatabaseImpl_update_sem_id sql_marcar_expiradas
           [JStr "2024-02-01"; JStr "2024-02-01"] loja_uma_vencida).
  - vm_compute. reflexivity.
  - vm_compute. reflexivity.
Defined.

(* ------------------------------------------------------------------ *)
(** ** A promotion that is created expired *)

Lemma varrer_todas_nao_ativa (rt : Runtime) (hojes : list string) (s : Storage)
    (n : nat) (p : Promocao.t) :
  nth_error (tab_promocoes s) n = Some p -> is_ativa p = false ->
  nth_error (tab_promocoes (varrer_todas rt hojes s)) n = Some p.
Proof.
  revert s. induction hojes as [|hoje hojes IH]; intros s H A; [exact H|].
  unfold varrer_todas. cbn [fold_left].
  fold (varrer_todas rt hojes (snd (atualizarStatusPromocoes rt hoje s))).
  apply IH; [|exact A].
  rewrite atualizarStatusPromocoes_eq. cbn [snd tab_promocoes promocoes].
  rewrite nth_error_map, H. cbn [option_map]. unfold vencida.
  unfold is_ativa in A. now rewrite A, andb_false_r.
Qed.

(** X20: a promotion whose end date is not after the time of its creation
    is stored as 'expirada' with no expiration date, and no sweep ever gives
    it one: after any number of sweeps, on any dates, the row is at its
    place with status 'expirada' and expiration date [null]. *)
Theorem criada_expirada_sem_data
    (rt : Runtime) (agora : Z) (data : CriarPromocaoData) (hojes : list string)
    (s : Storage) :
  num_gt (Date_getTime rt (JStr (dataFim data))) (Some agora) = false ->
  let id := fst (criarPromocao rt agora data s) in
  let s1 := snd (criarPromocao rt agora data s) in
  exists p,
    nth_error (tab_promocoes (varrer_todas rt hojes s1)) (length (tab_promocoes s)) = Some p
    /\ Promocao.id p = id
    /\ Promocao.status p = JStr "expirada"
    /\ Promocao.data_expiracao p = JNull.
Proof.
  intros H id s1. subst id s1. rewrite criarPromocao_eq. cbn [fst snd].
  unfold status_inicial. rewrite H.
  eexists. split.
  - apply varrer_todas_nao_ativa;
      [ cbn [tab_promocoes promocoes]; rewrite nth_error_app2 by lia;
        rewrite Nat.sub_diag; reflexivity
      | reflexivity ].
  - repeat split.
Qed.

(** X20 on a request whose end date is the day before its creation, and
    sweeps on the two following days. *)
Lemma criada_expirada_sem_data_witness :
  exists p,
    nth_error
      (tab_promocoes
         (varrer_todas runtime_iso ["2024-06-16"; "2024-06-17"]
            (snd (criarPromocao runtime_iso meio_dia_15_junho_2024
                    (mkCriarPromocaoData "p2" "Cha" 5 "2024-06-01" "2024-06-14" "2024-06-15")
                    loja_uma_vencida))))
      (length (tab_promocoes loja_uma_vencida)) = Some p
    /\ Promocao.id p
       = fst (criarPromocao runtime_iso meio_dia_15_junho_2024
                (mkCriarPromocaoData "p2" "Cha" 5 "2024-06-01" "2024-06-14" "2024-06-15")
                loja_uma_vencida)
    /\ Promocao.status p = JStr "expirada"
    /\ Promocao.data_expiracao p = JNull.
Proof.
  apply (criada_expirada_sem_data runtime_iso meio_dia_15_junho_2024
           (mkCriarPromocaoData "p2" "Cha" 5 "2024-06-01" "2024-06-14" "2024-06-15")
           ["2024-06-16"; "2024-06-17"] loja_uma_vencida).
  vm_compute. reflexivity.
Defined.

(* ------------------------------------------------------------------ *)
(** ** Reads never write *)

(** X21: no read writes the storage: whatever the statement and the
    parameters, [getAllAsync] and [getFirstAsync] leave the storage exactly
    as it was (an ORDER BY sorts the answer, not the stored table), and so do
    the five reading operations of the service. *)
Theorem leituras_nao_escrevem
    (rt : Runtime) (query : string) (params : list jsval) (status : string) (id : Z)
    (s : Storage) :
  snd (getAllAsync rt query params s) = s
  /\ snd (getFirstAsync rt query params s) = s
  /\ snd (buscarTodasPromocoes rt s) = s
  /\ snd (buscarHistoricoCompleto rt s) = s
  /\ snd (buscarPromocoesPorStatus rt status s) = s
  /\ snd (buscarPromocaoPorId rt id s) = s
  /\ snd (obterEstatisticasPromocoes rt s) = s.
Proof.
  assert (F : forall q ps, snd (getFirstAsync rt q ps s) = s).
  { intros q ps. unfold getFirstAsync, bind, ret.
    pose proof (getAllAsync_le rt q ps s) as E.
    destruct (getAllAsync rt q ps s) as [rows s0]. exact E. }
  repeat split; try apply getAllAsync_le; try apply F.
  now rewrite obterEstatisticasPromocoes_eq.
Qed.

(* ------------------------------------------------------------------ *)
(** ** The loop of the sweep, the counts, and the two adapters *)

Lemma registrarExpiradas_ja_registradas
    (rt : Runtime) (hoje : string) (ps : list row) (s : Storage) :
  (forall r, In r ps -> filter (expirada_de (prop r "id")) (tab_historico s) <> []) ->
  registrarExpiradas rt hoje ps s = (tt, s).
Proof.
  induction ps as [|promocao resto IH]; intros H; [reflexivity|].
  rewrite registrarExpiradas_cons.
  destruct (filter (expirada_de (prop promocao "id")) (tab_historico s)) eqn:F.
  - exfalso. apply (H promocao); [now left|exact F].
  - apply IH. intros r I. apply H. now right.
Qed.

(** X22: the loop that registers expirations, on any rows it is handed and
    any store: it only appends entries with action 'expirada' dated [hoje];
    a promotion that had such an entry keeps the number it had, and one that
    had none ends with exactly one when it is among the rows (however often)
    and with none otherwise; and the loop run again over the same rows, on
    any date, leaves the storage as the first run left it. *)
Theorem registrarExpiradas_guarda
    (rt : Runtime) (hoje hoje2 : string) (ps : list row) (s : Storage) :
  let s' := snd (registrarExpiradas rt hoje ps s) in
  (exists novos,
      tab_historico s' = tab_historico s ++ novos
      /\ Forall (fun e => Historico.acao e = JStr "expirada"
                          /\ Historico.data_acao e = JStr hoje) novos)
  /\ (forall pid,
      conta (expirada_de pid) (tab_historico s')
      = if 0 <? conta (expirada_de pid) (tab_historico s)
        then conta (expirada_de pid) (tab_historico s)
        else if existsb (fun r => js_seq (prop r "id") pid) ps then 1 else 0)
  /\ registrarExpiradas rt hoje2 ps s' = (tt, s').
Proof.
  intros s'. destruct (registrarExpiradas_spec rt hoje ps s) as [A C].
  fold s' in A, C. split; [exact A|]. split; [exact C|].
  apply registrarExpiradas_ja_registradas. intros r I F.
  apply conta_filter_nil in F. rewrite C in F.
  assert (E : existsb (fun r0 => js_seq (prop r0 "id") (prop r "id")) ps = true).
  { apply existsb_exists. exists r. split; [exact I|apply js_seq_refl]. }
  rewrite E in F.
  destruct (0 <? conta (expirada_de (prop r "id")) (tab_historico s)) eqn:P;
    [apply Z.ltb_lt in P; lia|discriminate].
Qed.

(** X23: the aggregate counts on the web adapter, for every store: [total]
    is the number of promotion rows, [canceladas] the number of history
    entries with action 'excluída', and [ativas] and [expiradas] are both
    equal to [total], whatever the statuses of the rows. *)
Theorem estatisticas_na_web (rt : Runtime) (s : Storage) :
  fst (obterEstatisticasPromocoes rt s)
  = mkEstatisticas (JNum (len (tab_promocoes s))) (JNum (len (tab_promocoes s)))
      (JNum (len (tab_promocoes s))) (JNum (conta is_excluida (tab_historico s))).
Proof.
  unfold obterEstatisticasPromocoes, getFirstAsync, bind, ret.
  rewrite getAll_count_total, getAll_count_ativas, getAll_count_expiradas,
    getAll_count_canceladas.
  destruct s as [d|]; [|reflexivity].
  cbn [fst tab_promocoes tab_historico]. now rewrite !count_or_0_len.
Qed.

(** X24: what the sweep does to each row: a row with status 'ativa' and an
    end date before the date of the sweep becomes 'expirada' with that date
    as expiration date, every other field kept; any other row is left as it
    is; every row stays at its place. *)
Theorem sweep_linha_a_linha
    (rt : Runtime) (hoje : string) (s : Storage) (n : nat) (p : Promocao.t) :
  nth_error (tab_promocoes s) n = Some p ->
  nth_error (tab_promocoes (snd (atualizarStatusPromocoes rt hoje s))) n
  = Some (if js_lt rt (Promocao.data_fim p) (JStr hoje) && is_ativa p
          then Promocao.mk (Promocao.id p) (Promocao.produto_id p) (Promocao.produto_nome p)
                 (Promocao.desconto p) (Promocao.data_inicio p) (Promocao.data_fim p)
                 (Promocao.data_criacao p) (JStr "expirada") (JStr hoje)
          else p).
Proof.
  intros H. rewrite atualizarStatusPromocoes_eq. cbn [snd tab_promocoes promocoes].
  rewrite nth_error_map, H. reflexivity.
Qed.

(** X24 on the overdue promotion of the running example. *)
Lemma sweep_linha_a_linha_witness :
  nth_error
    (tab_promocoes (snd (atualizarStatusPromocoes runtime_iso "2024-02-01" loja_uma_vencida)))
    0
  = Some (Promocao.mk 1 (JStr "p1") (JStr "Cafe") (JNum 10) (JStr "2024-01-01")
            (JStr "2024-01-31") (JStr "2024-01-01") (JStr "expirada") (JStr "2024-02-01")).
Proof.
  exact (sweep_linha_a_linha runtime_iso "2024-02-01" loja_uma_vencida 0 promocao_cafe
           eq_refl).
Defined.

(** X25: the two web adapters agree on an INSERT into the history and on a
    statement that starts with none of the four prefixes: same answer, same
    storage afterwards.  (They differ on DELETE, on the bulk UPDATE, and on
    the expiration date of an inserted promotion: [null] in [web.ts], absent
    in [database.ts].) *)
Theorem adaptadores_concordam
    (rt : Runtime) (query : string) (params : list jsval) (s : Storage) :
  startsWith query pre_insert_historico = true \/ nenhum_prefixo query = true ->
  WebDatabaseImpl.runAsync query params s = runAsync rt query params s.
Proof.
  intros [H|H].
  - pose proof (insert_historico_nao_promocoes query H) as N.
    unfold runAsync, WebDatabaseImpl.runAsync. fold pre_insert_promocoes pre_insert_historico.
    unfold bind, getItem, setItem, ret. now rewrite N, H.
  - unfold nenhum_prefixo, prefixos_run in H. cbn [forallb] in H. split_forallb H.
    unfold runAsync, WebDatabaseImpl.runAsync.
    fold pre_insert_promocoes pre_insert_historico pre_update_promocoes pre_delete_promocoes.
    unfold bind, getItem, setItem, ret. now rewrite N, N0, N1, N2.
Qed.

(** X25 on the INSERT into the history that [criarPromocao] runs. *)
Lemma adaptadores_concordam_witness :
  WebDatabaseImpl.runAsync (sql_insert_historico "       ")
    [JNum 1; JStr "Cafe"; JNum 10; JStr "2024-01-01"; JStr "2024-01-31"; JStr "criada";
     JStr "2024-01-01"] None
  = runAsync runtime_iso (sql_insert_historico "       ")
      [JNum 1; JStr "Cafe"; JNum 10; JStr "2024-01-01"; JStr "2024-01-31"; JStr "criada";
       JStr "2024-01-01"] None.
Proof.
  apply (adaptadores_concordam runtime_iso (sql_insert_historico "       ")).
  left. vm_compute. reflexivity.
Defined.
